(** * Body-fat estimation pipeline: ratio calculator, body-type classifier,
      rule-based estimator, texture estimator, fusion engine and
      physiological validator.

    The Python sources compute on [float].  This development reads every
    float as the exact rational it denotes ([Q]), so [+], [*], [/] and the
    comparisons are exact and [round(x, n)] is round-half-to-even on the
    decimal grid.  Dictionaries with string keys are [gmap string Q];
    a call that may raise returns a [Result]. *)

From Stdlib Require Import QArith Qround Lqa Lia ZArith Bool.
From stdpp Require Import gmap strings.

Local Open Scope Q_scope.

(** ** Python runtime: exceptions *)

Inductive Exn : Type :=
| KeyError (key : string)
| ZeroDivisionError
| TypeError
| OtherError (message : string).

Inductive Result (A : Type) : Type :=
| Ok (a : A)
| Raise (e : Exn).
Arguments Ok {A} a.
Arguments Raise {A} e.

Module Py.

Definition bind {A B} (m : Result A) (k : A -> Result B) : Result B :=
  match m with
  | Ok a => k a
  | Raise e => Raise e
  end.

(** [d[k]] *)
Definition getitem (d : gmap string Q) (k : string) : Result Q :=
  match d !! k with
  | Some v => Ok v
  | None => Raise (KeyError k)
  end.

(** [d.get(k, default)] *)
Definition get (d : gmap string Q) (k : string) (default : Q) : Q :=
  match d !! k with
  | Some v => v
  | None => default
  end.

(** [a / b] on numbers *)
Definition div (a b : Q) : Result Q :=
  if Qeq_bool b 0 then Raise ZeroDivisionError else Ok (a / b).

(** Comparisons as booleans. *)
Definition ltb (x y : Q) : bool :=
  match Qcompare x y with Lt => true | _ => false end.
Definition leb (x y : Q) : bool := Qle_bool x y.
Definition gtb (x y : Q) : bool := ltb y x.
Definition geb (x y : Q) : bool := leb y x.

(** [min(a, b)] returns its first argument unless the second is smaller;
    [max(a, b)] returns its first argument unless the second is larger. *)
Definition min (a b : Q) : Q := if ltb b a then b else a.
Definition max (a b : Q) : Q := if gtb b a then b else a.

(** [abs(x)] *)
Definition abs (x : Q) : Q := if ltb x 0 then - x else x.

(** Round half to even, to the nearest integer. *)
Definition round_half_even (x : Q) : Z :=
  let f := Qfloor x in
  match Qcompare (x - inject_Z f) (1 # 2) with
  | Lt => f
  | Gt => (f + 1)%Z
  | Eq => if Z.even f then f else (f + 1)%Z
  end.

(** [10 ** n] *)
Fixpoint pow10 (n : nat) : positive :=
  match n with
  | O => 1%positive
  | S n' => (10 * pow10 n')%positive
  end.

(** [round(x, ndigits)] *)
Definition round (x : Q) (ndigits : nat) : Q :=
  let scale := pow10 ndigits in
  Qmake (round_half_even (x * inject_Z (Zpos scale))) scale.

End Py.

#[global] Instance Result_bind : MBind Result :=
  fun A B k m => Py.bind m k.
#[global] Instance Result_ret : MRet Result := @Ok.

(** A Python dictionary with string keys and numeric values.  Entries
    that are not numbers (such as [person_detected]) are never read by the
    functions below and are left out. *)
Abbreviation dict := (gmap string Q).

(** Truth value of an optional dictionary ([if d:]): [None] and the empty
    dictionary are false. *)
Definition truthy (d : option dict) : bool :=
  match d with
  | Some m => negb (bool_decide (m = ∅))
  | None => false
  end.

(** ** The process-wide random generator

    [random.uniform] reads and advances the hidden state of the module
    [random].  The state is the sequence of values that [random.random()]
    will return, together with the position reached. *)

Record RandomState : Type := {
  draws : nat -> Q;
  position : nat
}.

Definition random_random (g : RandomState) : Q * RandomState :=
  (draws g (position g), {| draws := draws g; position := S (position g) |}).

(** [random.uniform(a, b)] is [a + (b - a) * random()]. *)
Definition random_uniform (a b : Q) (g : RandomState) : Q * RandomState :=
  let (u, g') := random_random g in (a + (b - a) * u, g').

(** Every value of [random.random()] lies in [0, 1). *)
Definition generator_ok (g : RandomState) : Prop :=
  forall n, 0 <= draws g n /\ draws g n < 1.

(** ** body_ratios.py *)

Record Ratios : Type := {
  r_waist_to_shoulder : Q;
  r_hip_to_shoulder : Q;
  r_torso_to_shoulder : Q
}.

Definition calculate_body_ratios (m : dict) : Result Ratios :=
  waist_width ← Py.getitem m "waist_width";
  shoulder_width ← Py.getitem m "shoulder_width";
  waist_to_shoulder ← Py.div waist_width shoulder_width;
  hip_width ← Py.getitem m "hip_width";
  shoulder_width ← Py.getitem m "shoulder_width";
  hip_to_shoulder ← Py.div hip_width shoulder_width;
  torso_height ← Py.getitem m "torso_height";
  shoulder_width ← Py.getitem m "shoulder_width";
  torso_to_shoulder ← Py.div torso_height shoulder_width;
  Ok {| r_waist_to_shoulder := waist_to_shoulder;
        r_hip_to_shoulder := hip_to_shoulder;
        r_torso_to_shoulder := torso_to_shoulder |}.

(** The dictionary the function returns. *)
Definition ratios_dict (r : Ratios) : dict :=
  <["waist_to_shoulder" := r_waist_to_shoulder r]>
  (<["hip_to_shoulder" := r_hip_to_shoulder r]>
  (<["torso_to_shoulder" := r_torso_to_shoulder r]> ∅)).

(** ** body_classifier.py *)

(** [bmi and bmi >= 28]: [None] and [0] are false. *)
Definition bmi_at_least_28 (bmi : option Q) : bool :=
  match bmi with
  | None => false
  | Some b => negb (Qeq_bool b 0) && Py.geb b 28
  end.

Definition classify_body_type (ratios : dict) (sex : string) (bmi : option Q)
  : string :=
  let waist_to_shoulder := Py.get ratios "waist_to_shoulder" 0 in
  let hip_to_shoulder := Py.get ratios "hip_to_shoulder" 0 in
  if String.eqb sex "female" then
    if Py.ltb waist_to_shoulder 0.45 && Py.ltb hip_to_shoulder 0.9 then
      "muscular"
    else if Py.gtb waist_to_shoulder 0.6 || bmi_at_least_28 bmi then
      "overweight"
    else "lean"
  else
    if Py.ltb waist_to_shoulder 0.4 && Py.ltb hip_to_shoulder 0.85 then
      "muscular"
    else if Py.gtb waist_to_shoulder 0.6 || bmi_at_least_28 bmi then
      "overweight"
    else "lean".

(** ** body_fat_logic.py *)

Definition is_male (sex : string) : bool := String.eqb sex "male".

Definition base_body_fat (body_type sex : string) : Q :=
  if String.eqb body_type "lean" then (if is_male sex then 10 else 18)
  else if String.eqb body_type "athletic" then (if is_male sex then 12 else 20)
  else if String.eqb body_type "muscular" then (if is_male sex then 15 else 23)
  else if String.eqb body_type "overweight" then (if is_male sex then 25 else 32)
  else (if is_male sex then 15 else 25).

Definition bmi_adjustment (bmi : Q) : Q :=
  if Py.ltb bmi 18.5 then -3
  else if Py.leb 18.5 bmi && Py.ltb bmi 22 then -1
  else if Py.leb 22 bmi && Py.ltb bmi 25 then 1
  else if Py.leb 25 bmi && Py.ltb bmi 27.5 then 4
  else if Py.leb 27.5 bmi && Py.ltb bmi 30 then 7
  else if Py.leb 30 bmi && Py.ltb bmi 32.5 then 10
  else 14.

Definition waist_adjustment (sex : string) (ratios : option dict) : Q :=
  if truthy ratios then
    let waist_to_shoulder := Py.get (default ∅ ratios) "waist_to_shoulder" 0 in
    if is_male sex then
      if Py.gtb waist_to_shoulder 0.70 then 6
      else if Py.gtb waist_to_shoulder 0.65 then 4
      else if Py.gtb waist_to_shoulder 0.58 then 2
      else if Py.gtb waist_to_shoulder 0.52 then 1
      else 0
    else
      if Py.gtb waist_to_shoulder 0.75 then 5
      else if Py.gtb waist_to_shoulder 0.70 then 3
      else if Py.gtb waist_to_shoulder 0.62 then 2
      else if Py.gtb waist_to_shoulder 0.55 then 1
      else 0
  else 0.

Definition visual_adjustment (measurements : option dict) : Q :=
  if truthy measurements then
    let m := default ∅ measurements in
    let volume_indicator := Py.get m "volume_indicator" 0 in
    let from_volume :=
      if Py.gtb volume_indicator 0.25 then 3
      else if Py.gtb volume_indicator 0.20 then 2
      else if Py.gtb volume_indicator 0.15 then 1
      else 0 in
    let waist_prominence := Py.get m "waist_prominence" 0 in
    let from_prominence :=
      if Py.gtb waist_prominence 0.03 then 4
      else if Py.gtb waist_prominence 0.01 then 2
      else if Py.gtb waist_prominence 0 then 1
      else 0 in
    0 + from_volume + from_prominence
  else 0.

(** Physiological limits: [max(5, min(x, 45))] for men,
    [max(12, min(x, 50))] otherwise. *)
Definition clamp_to_sex_bounds (sex : string) (x : Q) : Q :=
  if is_male sex then Py.max 5 (Py.min x 45) else Py.max 12 (Py.min x 50).

(** The value computed once the noise has been drawn. *)
Definition body_fat_with_noise (body_type : string) (bmi : Q) (sex : string)
    (ratios measurements : option dict) (noise : Q) : Q :=
  let body_fat :=
    base_body_fat body_type sex + bmi_adjustment bmi
    + waist_adjustment sex ratios + visual_adjustment measurements + noise in
  Py.round (clamp_to_sex_bounds sex body_fat) 1.

Definition estimate_body_fat (body_type : string) (bmi : Q) (sex : string)
    (ratios measurements : option dict) (g : RandomState) : Q * RandomState :=
  let (noise, g') := random_uniform (-0.5) 0.5 g in
  (body_fat_with_noise body_type bmi sex ratios measurements noise, g').

(** ** texture_analyzer.py: estimate_bf_from_definition *)

Definition penalized_visual_score (definition_score abs_visibility vascularity
    central_fat : Q) : Q :=
  let visual_score :=
    definition_score * 0.40 + abs_visibility * 0.35 + vascularity * 0.25 in
  if Py.gtb central_fat 0.70 then visual_score * 0.70
  else if Py.gtb central_fat 0.60 then visual_score * 0.80
  else if Py.gtb central_fat 0.50 then visual_score * 0.90
  else visual_score.

Definition bf_from_visual_score (sex : string) (visual_score : Q) : Q :=
  if is_male sex then
    if Py.gtb visual_score 0.85 then 7 + (1.0 - visual_score) * 27
    else if Py.gtb visual_score 0.70 then 11 + (0.85 - visual_score) * 33
    else if Py.gtb visual_score 0.50 then 16 + (0.70 - visual_score) * 40
    else 24 + (0.50 - visual_score) * 50
  else
    if Py.gtb visual_score 0.80 then 14 + (1.0 - visual_score) * 30
    else if Py.gtb visual_score 0.60 then 20 + (0.80 - visual_score) * 30
    else if Py.gtb visual_score 0.40 then 26 + (0.60 - visual_score) * 40
    else 34 + (0.40 - visual_score) * 50.

Definition bmi_sanity_override (bmi bf_estimate : Q) : Q :=
  if Py.ltb bmi 20 && Py.gtb bf_estimate 16 then 9 + (bmi - 18) * 3
  else if Py.gtb bmi 30 && Py.ltb bf_estimate 20 then 20 + (bmi - 30) * 2.5
  else bf_estimate.

Definition central_fat_correction (sex : string) (central_fat bf_estimate : Q)
  : Q :=
  if Py.gtb central_fat 0.75 then
    Py.min (bf_estimate + 5) (if is_male sex then 45 else 50)
  else if Py.gtb central_fat 0.65 then
    Py.min (bf_estimate + 3) (if is_male sex then 45 else 50)
  else bf_estimate.

Definition estimate_bf_from_definition (definition_data : dict) (sex : string)
    (bmi : Q) : Result Q :=
  definition_score ← Py.getitem definition_data "definition_score";
  abs_visibility ← Py.getitem definition_data "abs_visibility";
  vascularity ← Py.getitem definition_data "vascularity";
  let central_fat := Py.get definition_data "central_fat" 0.5 in
  let visual_score :=
    penalized_visual_score definition_score abs_visibility vascularity
      central_fat in
  let bf_estimate := bf_from_visual_score sex visual_score in
  let bf_estimate := bmi_sanity_override bmi bf_estimate in
  let bf_estimate := central_fat_correction sex central_fat bf_estimate in
  Ok (Py.round bf_estimate 1).

(** ** bf_validator.py: validate_and_adjust_bf *)

Inductive Reason : Type :=
| NoReason                        (* the empty string *)
| BmiTooLow (bmi : Q)
| AthleticPhysique
| BmiTooHigh (bmi : Q)
| WideWaist.

Record Validation : Type := {
  adjusted_bf : Q;
  original_bf : Q;
  was_adjusted : bool;
  adjustment : Q;
  reason : Reason;
  validation_confidence : string
}.

(** The local variables the four rules assign to. *)
Record ValidatorState : Type := {
  vs_adjusted_bf : Q;
  vs_was_adjusted : bool;
  vs_reason : Reason
}.

Definition rule_low_bmi (bf_prediction bmi : Q) (sex : string)
    (st : ValidatorState) : ValidatorState :=
  if Py.ltb bmi 22 && Py.gtb bf_prediction 20 then
    {| vs_adjusted_bf :=
         if is_male sex then 8 + (bmi - 18) * 2 else 16 + (bmi - 18) * 2;
       vs_was_adjusted := true;
       vs_reason := BmiTooLow bmi |}
  else st.

Definition is_athletic (waist_to_shoulder volume_indicator bmi : Q) : bool :=
  Py.ltb waist_to_shoulder 0.50 && Py.gtb volume_indicator 0.20
  && (Py.leb 20 bmi && Py.leb bmi 26).

Definition rule_athletic (bf_prediction bmi : Q) (sex : string)
    (waist_to_shoulder volume_indicator : Q) (st : ValidatorState)
  : ValidatorState :=
  if is_athletic waist_to_shoulder volume_indicator bmi
     && Py.gtb bf_prediction 18 then
    {| vs_adjusted_bf :=
         if is_male sex then 8 + waist_to_shoulder * 20
         else 16 + waist_to_shoulder * 20;
       vs_was_adjusted := true;
       vs_reason := AthleticPhysique |}
  else st.

Definition rule_high_bmi (bf_prediction bmi : Q) (sex : string)
    (st : ValidatorState) : ValidatorState :=
  if Py.gtb bmi 28 && Py.ltb bf_prediction 20 then
    {| vs_adjusted_bf :=
         if is_male sex then 20 + (bmi - 28) * 1.5 else 28 + (bmi - 28) * 1.5;
       vs_was_adjusted := true;
       vs_reason := BmiTooHigh bmi |}
  else st.

Definition rule_wide_waist (bf_prediction : Q) (sex : string)
    (waist_to_shoulder : Q) (st : ValidatorState) : ValidatorState :=
  if Py.gtb waist_to_shoulder 0.70 && Py.ltb bf_prediction 22 then
    {| vs_adjusted_bf :=
         if is_male sex then 22 + (waist_to_shoulder - 0.70) * 40
         else 30 + (waist_to_shoulder - 0.70) * 40;
       vs_was_adjusted := true;
       vs_reason := WideWaist |}
  else st.

Definition validate_and_adjust_bf (bf_prediction bmi : Q) (sex : string)
    (measurements ratios : dict) : Validation :=
  let st := {| vs_adjusted_bf := bf_prediction;
               vs_was_adjusted := false;
               vs_reason := NoReason |} in
  let st := rule_low_bmi bf_prediction bmi sex st in
  let waist_to_shoulder := Py.get ratios "waist_to_shoulder" 0.6 in
  let volume_indicator := Py.get measurements "volume_indicator" 0.15 in
  let st :=
    rule_athletic bf_prediction bmi sex waist_to_shoulder volume_indicator st in
  let st := rule_high_bmi bf_prediction bmi sex st in
  let st := rule_wide_waist bf_prediction sex waist_to_shoulder st in
  let adjusted := clamp_to_sex_bounds sex (vs_adjusted_bf st) in
  {| adjusted_bf := Py.round adjusted 1;
     original_bf := Py.round bf_prediction 1;
     was_adjusted := vs_was_adjusted st;
     adjustment := Py.round (adjusted - bf_prediction) 1;
     reason := vs_reason st;
     validation_confidence :=
       if negb (vs_was_adjusted st) then "high" else "adjusted" |}.

(** ** ensemble_predictor.py *)

(** The messages appended to [adjustments] (and to the estimator's
    [alerts]), with the values they are formatted from. *)
Inductive Note : Type :=
| SuspiciousMeasurements (shoulder_width hip_width : Q)
| AthletePrioritiseTexture
| OverweightPrioritiseRules
| PartialDetectionPrioritiseTexture
| LowImageQualityPrioritiseRules
| MlDiverges (ml_divergence : Q)
| ValidationApplied (safe_prediction final_prediction : Q) (why : Reason)
| ConfidenceReducedByMl (ml_divergence : Q)
| MlModelUnavailable (e : Exn)
| Warning (text : string).

Definition _calculate_ml_confidence (measurements ratios : dict) (bmi : Q)
  : Q :=
  let confidence := 0.5 in
  let confidence :=
    if Py.ltb bmi 18 || Py.gtb bmi 35 then confidence * 0.8 else confidence in
  let waist_ratio := Py.get ratios "waist_to_shoulder" 0.6 in
  let confidence :=
    if Py.ltb waist_ratio 0.35 || Py.gtb waist_ratio 0.80
    then confidence * 0.85 else confidence in
  let volume := Py.get measurements "volume_indicator" 0.15 in
  let confidence :=
    if Py.ltb volume 0.10 || Py.gtb volume 0.35
    then confidence * 0.9 else confidence in
  confidence.

Definition _get_confidence_level (confidence : Q) : string :=
  if Py.geb confidence 0.85 then "Muito Alta"
  else if Py.geb confidence 0.70 then "Alta"
  else if Py.geb confidence 0.55 then "Média"
  else if Py.geb confidence 0.40 then "Baixa"
  else "Muito Baixa".

(** Degenerate landmark extraction (white background, partial
    detection). *)
Definition suspicious_of (measurements ratios : dict) : bool :=
  let shoulder_width := Py.get measurements "shoulder_width" 0.4 in
  let hip_width := Py.get measurements "hip_width" 0.3 in
  let waist_to_shoulder := Py.get ratios "waist_to_shoulder" 0.6 in
  Py.ltb shoulder_width 0.25 || Py.ltb hip_width 0.15
  || Py.gtb waist_to_shoulder 0.80.

Definition athlete_of (texture_data : dict) (bmi : Q) : bool :=
  let definition_score := Py.get texture_data "definition_score" 0.5 in
  let abs_visibility := Py.get texture_data "abs_visibility" 0.5 in
  let central_fat := Py.get texture_data "central_fat" 0.5 in
  Py.gtb definition_score 0.65 && Py.gtb abs_visibility 0.60
  && Py.ltb central_fat 0.45 && (Py.leb 20 bmi && Py.leb bmi 26).

Definition overweight_of (bmi : Q) (ratios : dict) : bool :=
  let waist_to_shoulder := Py.get ratios "waist_to_shoulder" 0.6 in
  Py.gtb bmi 28 && Py.gtb waist_to_shoulder 0.65.

(** The confidences of the two published methods and the notes gathered so
    far: the local variables [rules_confidence], [texture_confidence] and
    [adjustments]. *)
Record Confidence : Type := {
  rules_confidence : Q;
  texture_confidence : Q;
  notes : list Note
}.

Definition athlete_case (is_athlete : bool) (c : Confidence) : Confidence :=
  if is_athlete then
    {| notes := notes c ++ [AthletePrioritiseTexture];
       texture_confidence := Py.min (texture_confidence c * 1.4) 1.0;
       rules_confidence := rules_confidence c * 0.9 |}
  else c.

Definition overweight_case (is_overweight : bool) (c : Confidence)
  : Confidence :=
  if is_overweight then
    {| notes := notes c ++ [OverweightPrioritiseRules];
       rules_confidence := Py.min (rules_confidence c * 1.3) 1.0;
       texture_confidence := texture_confidence c * 0.85 |}
  else c.

Definition suspicious_case (measurements_suspicious : bool) (c : Confidence)
  : Confidence :=
  if measurements_suspicious then
    {| notes := notes c ++ [PartialDetectionPrioritiseTexture];
       texture_confidence := Py.min (texture_confidence c * 1.6) 1.0;
       rules_confidence := rules_confidence c * 0.7 |}
  else c.

Definition low_quality_case (c : Confidence) : Confidence :=
  if Py.ltb (texture_confidence c) 0.4 then
    {| notes := notes c ++ [LowImageQualityPrioritiseRules];
       rules_confidence := Py.min (rules_confidence c * 1.2) 1.0;
       texture_confidence := texture_confidence c * 0.8 |}
  else c.

(** The four cases in the order of the source; each reads the confidences
    left by the one before. *)
Definition adjust_confidences (is_athlete is_overweight
    measurements_suspicious : bool) (c : Confidence) : Confidence :=
  low_quality_case
    (suspicious_case measurements_suspicious
       (overweight_case is_overweight (athlete_case is_athlete c))).

(** The confidences of rules and texture after the special cases, with
    the notes gathered up to there. *)
Definition fused_confidence (texture_data : dict) (bmi : Q)
    (measurements ratios : dict) : Confidence :=
  let suspicious := suspicious_of measurements ratios in
  let adjustments :=
    if suspicious
    then [SuspiciousMeasurements (Py.get measurements "shoulder_width" 0.4)
            (Py.get measurements "hip_width" 0.3)]
    else [] in
  adjust_confidences (athlete_of texture_data bmi)
    (overweight_of bmi ratios) suspicious
    {| texture_confidence := Py.get texture_data "confidence" 0.5;
       rules_confidence := 0.7;
       notes := adjustments |}.

(** [np.std([a, b])]: the population standard deviation of two values,
    the square root of [((a - m)**2 + (b - m)**2) / 2] with [m] their mean,
    equals [|a - b| / 2]. *)
Definition np_std2 (a b : Q) : Q := Py.abs (a - b) / 2.

(** The confidence before the ML divergence is looked at. *)
Definition clamped_confidence (rules_prediction texture_prediction : Q)
    (c : Confidence) : Q :=
  let pred_std_safe := np_std2 rules_prediction texture_prediction in
  let agreement := 1.0 - pred_std_safe / 20 in
  let avg_confidence := (rules_confidence c + texture_confidence c) / 2 in
  let final_confidence := agreement * 0.6 + avg_confidence * 0.4 in
  Py.max 0.3 (Py.min final_confidence 1.0).

Record SafeWeights : Type := { sw_rules : Q; sw_texture : Q }.
Record ExperimentalWeights : Type :=
  { ew_ml : Q; ew_rules : Q; ew_texture : Q }.

Record MlAnalysis : Type := {
  ma_prediction : Q;
  divergence_from_rules : Q;
  confidence_impact : string;
  status : string
}.

Record SpecialCases : Type := {
  is_athlete : bool;
  is_overweight : bool;
  measurements_suspicious : bool;
  low_image_quality : bool
}.

Record EnsembleResult : Type := {
  final_prediction : Q;
  safe_prediction : Q;
  experimental_prediction : option Q;
  ml_prediction_out : Q;
  rules_prediction_out : Q;
  texture_prediction_out : Q;
  safe_weights : SafeWeights;
  experimental_weights : option ExperimentalWeights;
  mode : string;
  confidence : Q;
  confidence_level : string;
  adjustments : list Note;
  ml_analysis : MlAnalysis;
  special_cases : SpecialCases
}.

(** The experimental blend (the body of [if use_experimental_ml:]): the
    prediction, the unrounded weights and the notes. *)
Record Experimental : Type := {
  exp_prediction : Q;
  exp_ml_weight : Q;
  exp_rules_weight : Q;
  exp_texture_weight : Q
}.

Definition experimental_blend (ml_prediction rules_prediction
    texture_prediction ml_confidence : Q) (c : Confidence)
  : Result Experimental :=
  let total_exp := ml_confidence + rules_confidence c + texture_confidence c in
  exp_ml_weight ← Py.div ml_confidence total_exp;
  exp_rules_weight ← Py.div (rules_confidence c) total_exp;
  exp_texture_weight ← Py.div (texture_confidence c) total_exp;
  Ok {| exp_prediction :=
          ml_prediction * exp_ml_weight + rules_prediction * exp_rules_weight
          + texture_prediction * exp_texture_weight;
        exp_ml_weight := exp_ml_weight;
        exp_rules_weight := exp_rules_weight;
        exp_texture_weight := exp_texture_weight |}.

(** [x if x else None] on an optional float: [None] and [0.0] are false. *)
Definition if_truthy (x : option Q) : option Q :=
  match x with
  | Some v => if Qeq_bool v 0 then None else Some v
  | None => None
  end.

(** The fusion engine.  Its weights are quotients of confidences, rounded
    to three decimals when they are returned.  The quotients are exact
    here; a [float] quotient can fall on the other side of a rounding tie:
    0.7 / 1.6 is 0.4375 here and rounds to 0.438, while in binary64 it is
    just below 0.4375 and rounds to 0.437.  What is stated below about the
    returned weights is therefore a bound that leaves room for one such
    step per weight, or a value away from any tie. *)
Definition ensemble_predict_body_fat (ml_prediction : option Q)
    (rules_prediction : Q) (texture_data : dict) (bmi : Q) (sex : string)
    (measurements ratios : dict) (use_experimental_ml : bool)
  : Result EnsembleResult :=
  texture_prediction ← estimate_bf_from_definition texture_data sex bmi;
  let ml_confidence := _calculate_ml_confidence measurements ratios bmi in
  let c := fused_confidence texture_data bmi measurements ratios in
  (* SAFE mode *)
  let total_safe := rules_confidence c + texture_confidence c in
  safe_rules_weight ← Py.div (rules_confidence c) total_safe;
  safe_texture_weight ← Py.div (texture_confidence c) total_safe;
  let safe_prediction :=
    rules_prediction * safe_rules_weight
    + texture_prediction * safe_texture_weight in
  (* EXPERIMENTAL mode *)
  ml_prediction ← match ml_prediction with
                  | Some v => Ok v
                  | None => Raise TypeError
                  end;
  let ml_divergence := Py.abs (ml_prediction - rules_prediction) in
  experimental ←
    (if use_experimental_ml then
       let diverges := Py.gtb ml_divergence 10 in
       let ml_confidence :=
         if diverges then ml_confidence * 0.3 else ml_confidence in
       e ← experimental_blend ml_prediction rules_prediction
             texture_prediction ml_confidence c;
       Ok (Some e, if diverges then [MlDiverges ml_divergence] else [])
     else Ok (None, []));
  let adjustments := notes c ++ experimental.2 in
  let experimental_prediction := exp_prediction <$> experimental.1 in
  let experimental_weights :=
    (fun e => {| ew_ml := Py.round (exp_ml_weight e) 3;
                 ew_rules := Py.round (exp_rules_weight e) 3;
                 ew_texture := Py.round (exp_texture_weight e) 3 |})
      <$> experimental.1 in
  (* final physiological validation *)
  let validation :=
    validate_and_adjust_bf safe_prediction bmi sex measurements ratios in
  let validated_prediction := adjusted_bf validation in
  let adjustments :=
    if was_adjusted validation
    then adjustments
         ++ [ValidationApplied safe_prediction validated_prediction
               (reason validation)]
    else adjustments in
  (* final confidence *)
  let final_confidence :=
    clamped_confidence rules_prediction texture_prediction c in
  let final_confidence :=
    if Py.gtb ml_divergence 15 then final_confidence * 0.85
    else final_confidence in
  let adjustments :=
    if Py.gtb ml_divergence 15
    then adjustments ++ [ConfidenceReducedByMl ml_divergence]
    else adjustments in
  let mode := if use_experimental_ml then "EXPERIMENTAL" else "SAFE" in
  headline ←
    (if use_experimental_ml then
       match experimental_prediction with
       | Some v => Ok v
       | None => Raise TypeError
       end
     else Ok validated_prediction);
  Ok {| final_prediction := Py.round headline 1;
        safe_prediction := Py.round validated_prediction 1;
        experimental_prediction :=
          (fun v => Py.round v 1) <$> if_truthy experimental_prediction;
        ml_prediction_out := Py.round ml_prediction 1;
        rules_prediction_out := Py.round rules_prediction 1;
        texture_prediction_out := Py.round texture_prediction 1;
        safe_weights :=
          {| sw_rules := Py.round safe_rules_weight 3;
             sw_texture := Py.round safe_texture_weight 3 |};
        experimental_weights := experimental_weights;
        mode := mode;
        confidence := Py.round final_confidence 2;
        confidence_level := _get_confidence_level final_confidence;
        adjustments := adjustments;
        ml_analysis :=
          {| ma_prediction := Py.round ml_prediction 1;
             divergence_from_rules := Py.round ml_divergence 1;
             confidence_impact :=
               if Py.gtb ml_divergence 15 then "reduced" else "neutral";
             status :=
               if negb use_experimental_ml then "quarantine" else "active" |};
        special_cases :=
          {| is_athlete := athlete_of texture_data bmi;
             is_overweight := overweight_of bmi ratios;
             measurements_suspicious := suspicious_of measurements ratios;
             low_image_quality := Py.ltb (texture_confidence c) 0.4 |} |}.

(** ** bf_estimator.py: estimate_body_composition

    The image collaborators (content validation, landmark extraction,
    texture analysis, face analysis) have run and delivered [measurements],
    [texture_data] and the [alerts] gathered so far; [regressor] is the
    outcome of loading the regression model and calling [predict].  What
    follows is the body of the function from the ratio computation to the
    choice of the published estimate. *)

Record EnsembleInfo : Type := {
  ei_mode : string;
  ei_ml_prediction : Q;
  ei_rules_prediction : Q;
  ei_texture_prediction : Q;
  ei_safe_prediction : Q;
  ei_experimental_prediction : option Q;
  ei_safe_weights : SafeWeights;
  ei_experimental_weights : option ExperimentalWeights;
  ei_confidence : Q;
  ei_confidence_level : string;
  ei_ml_analysis : MlAnalysis;
  ei_special_cases : SpecialCases
}.

Record Composition : Type := {
  body_type : string;
  body_fat_percentage : Q;
  bmi_out : Q;
  estimation_method : string;
  ratios_out : Ratios;
  alerts : list Note;
  ensemble_info : option EnsembleInfo
}.

(** What the caller receives: the result dictionary, or the dictionary with
    the key ["error"] built by the handler [except Exception as e]. *)
Inductive Outcome : Type :=
| Estimated (result : Composition)
| ProcessingError (detail : Exn).

(** The ML step: [ml_prediction] stays [None] unless [use_ml] is set and
    the regressor answers; an exception leaves an alert. *)
Definition ml_step (use_ml : bool) (regressor : Result Q) (alerts : list Note)
  : option Q * list Note :=
  if use_ml then
    match regressor with
    | Ok v => (Some v, alerts)
    | Raise e => (None, alerts ++ [MlModelUnavailable e])
    end
  else (None, alerts).

Definition estimate_steps (measurements texture_data : dict)
    (weight_kg height_cm : Q) (sex : string) (use_ml use_ensemble : bool)
    (regressor : Result Q) (alerts : list Note) (USE_EXPERIMENTAL_ML : bool)
    (g : RandomState) : Result Composition * RandomState :=
  match
    (ratios ← calculate_body_ratios measurements;
     let height_m := height_cm / 100 in
     bmi ← Py.div weight_kg (height_m * height_m);
     Ok (ratios, bmi))
  with
  | Raise e => (Raise e, g)
  | Ok (ratios, bmi) =>
    let body_type := classify_body_type (ratios_dict ratios) sex (Some bmi) in
    let (ml_prediction, alerts) := ml_step use_ml regressor alerts in
    let (rules_prediction, g) :=
      estimate_body_fat body_type bmi sex (Some (ratios_dict ratios))
        (Some measurements) g in
    let chosen :=
      match use_ensemble, ml_prediction with
      | true, Some ml =>
        ensemble_result ←
          ensemble_predict_body_fat (Some ml) rules_prediction texture_data
            bmi sex measurements (ratios_dict ratios) USE_EXPERIMENTAL_ML;
        Ok (safe_prediction ensemble_result,
            ("Ensemble V3 - " +:+ mode ensemble_result +:+ " MODE")%string,
            alerts ++ adjustments ensemble_result,
            Some {| ei_mode := mode ensemble_result;
                    ei_ml_prediction := ml_prediction_out ensemble_result;
                    ei_rules_prediction := rules_prediction_out ensemble_result;
                    ei_texture_prediction :=
                      texture_prediction_out ensemble_result;
                    ei_safe_prediction := safe_prediction ensemble_result;
                    ei_experimental_prediction :=
                      experimental_prediction ensemble_result;
                    ei_safe_weights := safe_weights ensemble_result;
                    ei_experimental_weights :=
                      experimental_weights ensemble_result;
                    ei_confidence := confidence ensemble_result;
                    ei_confidence_level := confidence_level ensemble_result;
                    ei_ml_analysis := ml_analysis ensemble_result;
                    ei_special_cases := special_cases ensemble_result |})
      | _, _ =>
        (* fallback: rules only *)
        Ok (rules_prediction, "Rule-based"%string, alerts, None)
      end in
    ('(body_fat, estimation_method, alerts, ensemble_info) ← chosen;
     Ok {| body_type := body_type;
           body_fat_percentage := body_fat;
           bmi_out := Py.round bmi 1;
           estimation_method := estimation_method;
           ratios_out := ratios;
           alerts := alerts;
           ensemble_info := ensemble_info |}, g)
  end.

Definition estimate_body_composition (measurements texture_data : dict)
    (weight_kg height_cm : Q) (sex : string) (use_ml use_ensemble : bool)
    (regressor : Result Q) (alerts : list Note) (USE_EXPERIMENTAL_ML : bool)
    (g : RandomState) : Outcome * RandomState :=
  match estimate_steps measurements texture_data weight_kg height_cm sex
          use_ml use_ensemble regressor alerts USE_EXPERIMENTAL_ML g with
  | (Ok result, g') => (Estimated result, g')
  | (Raise e, g') => (ProcessingError e, g')
  end.

(** * Concrete inputs and thresholds used in the statements *)

Definition measurements_without_shoulder : dict :=
  <["waist_width" := 0.3]> (<["hip_width" := 0.3]>
  (<["torso_height" := 0.5]> ∅)).

Definition measurements_zero_shoulder : dict :=
  <["shoulder_width" := 0]> measurements_without_shoulder.

Definition measurements_complete : dict :=
  <["shoulder_width" := 0.5]> measurements_without_shoulder.

Definition narrow_ratios : dict :=
  <["waist_to_shoulder" := 0.38]> (<["hip_to_shoulder" := 0.8]> ∅).

Definition middle_ratios : dict :=
  <["waist_to_shoulder" := 0.5]> (<["hip_to_shoulder" := 0.95]> ∅).

(** The thresholds of the muscular test of the classifier. *)
Definition muscular_waist_limit (sex : string) : Q :=
  if String.eqb sex "female" then 0.45 else 0.4.
Definition muscular_hip_limit (sex : string) : Q :=
  if String.eqb sex "female" then 0.9 else 0.85.

(** The physiological bounds: 5 to 45 for men, 12 to 50 otherwise. *)
Definition within_sex_bounds (sex : string) (x : Q) : Prop :=
  if is_male sex then 5 <= x /\ x <= 45 else 12 <= x /\ x <= 50.

Definition athletic_measurements : dict := <["volume_indicator" := 0.25]> ∅.
Definition athletic_ratios : dict := <["waist_to_shoulder" := 0.45]> ∅.

(** A generator whose first draw is 0.9 and whose later draws are 0.1. *)
Definition uneven_generator : RandomState :=
  {| draws := fun n => match n with O => 0.9 | S _ => 0.1 end;
     position := 0 |}.

Definition waist_060 : dict := <["waist_to_shoulder" := 0.60]> ∅.
Definition waist_061 : dict := <["waist_to_shoulder" := 0.61]> ∅.

(** Texture signals as the fusion engine needs them: the three scores the
    texture estimator reads are present and the quality estimate, when
    present, is not negative. *)
Definition texture_ok (texture_data : dict) : Prop :=
  is_Some (texture_data !! "definition_score")
  /\ is_Some (texture_data !! "abs_visibility")
  /\ is_Some (texture_data !! "vascularity")
  /\ 0 <= Py.get texture_data "confidence" 0.5.

Definition texture_signals (definition_score abs_visibility vascularity
    central_fat confidence : Q) : dict :=
  <["definition_score" := definition_score]>
  (<["abs_visibility" := abs_visibility]>
  (<["vascularity" := vascularity]>
  (<["central_fat" := central_fat]>
  (<["confidence" := confidence]> ∅)))).

Definition flat_texture : dict := texture_signals 0 0 0 0.5 0.5.
Definition even_texture : dict := texture_signals 0.5 0.5 0.5 0.5 0.7.
Definition sharp_texture : dict := texture_signals 0.5 0.5 0.5 0.5 0.9.
Definition calm_texture : dict := texture_signals 0.5 0.5 0.5 0.5 0.6.
Definition keen_texture : dict := texture_signals 0.5 0.5 0.5 0.5 0.95.
Definition blank_texture : dict := texture_signals 0 0 0 0.5 0.
Definition waist_068 : dict := <["waist_to_shoulder" := 0.68]> ∅.

(** The regression model gave no estimate: it was not asked, or loading or
    calling it raised. *)
Definition ml_unavailable (use_ml : bool) (regressor : Result Q) : Prop :=
  use_ml = false \/ exists e, regressor = Raise e.

Definition model_not_found : Result Q :=
  Raise (OtherError "model file not found").

(** * Further functions of the pipeline *)

(** ** Text helpers

    [str.lower] and [str.strip] on ASCII text: the letters [A] to [Z] are
    lowered, the whitespace characters stripped are those of ASCII.  The
    word lists compared against below are lower-case ASCII. *)

Definition lower_char (c : Ascii.ascii) : Ascii.ascii :=
  let n := Ascii.nat_of_ascii c in
  if Nat.leb 65 n && Nat.leb n 90 then Ascii.ascii_of_nat (n + 32) else c.

Fixpoint lower (s : string) : string :=
  match s with
  | EmptyString => EmptyString
  | String c s' => String (lower_char c) (lower s')
  end.





(** [x in words] *)
Definition string_in (x : string) (words : list string) : bool :=
  existsb (String.eqb x) words.

Definition male_words : list string :=
  ["m"; "male"; "masculino"; "homem"; "man"]%string.
Definition female_words : list string :=
  ["f"; "female"; "feminino"; "mulher"; "woman"]%string.

(** ** bf_validator.py: categories and detailed analysis *)

Record Category : Type := {
  category : string;
  label : string;
  description : string
}.

Definition get_bf_category (bf : Q) (sex : string) : Category :=
  if is_male sex then
    if Py.ltb bf 6 then
      {| category := "essential";
         label := "Essencial (Extremo)";
         description := "Nível mínimo para sobrevivência. Risco à saúde." |}
    else if Py.ltb bf 14 then
      {| category := "athletic";
         label := "Atlético";
         description := "Músculos bem definidos, vascularização visível." |}
    else if Py.ltb bf 18 then
      {| category := "fit";
         label := "Fitness";
         description := "Aparência saudável e atlética." |}
    else if Py.ltb bf 25 then
      {| category := "average";
         label := "Médio";
         description := "Faixa comum para homens adultos." |}
    else
      {| category := "overweight";
         label := "Sobrepeso";
         description := "Excesso de gordura corporal visível." |}
  else
    if Py.ltb bf 14 then
      {| category := "essential";
         label := "Essencial (Extremo)";
         description := "Nível mínimo para sobrevivência. Risco à saúde." |}
    else if Py.ltb bf 21 then
      {| category := "athletic";
         label := "Atlético";
         description := "Músculos definidos, baixo percentual de gordura." |}
    else if Py.ltb bf 25 then
      {| category := "fit";
         label := "Fitness";
         description := "Aparência saudável e tonificada." |}
    else if Py.ltb bf 32 then
      {| category := "average";
         label := "Médio";
         description := "Faixa comum para mulheres adultas." |}
    else
      {| category := "overweight";
         label := "Sobrepeso";
         description := "Excesso de gordura corporal visível." |}.

Definition _get_health_status (bf bmi : Q) (sex : string) (age : Z) : string :=
  let healthy_bf_range := if is_male sex then (10, 22) else (18, 30) in
  let healthy_bmi_range := (18.5, 24.9) in
  let bf_healthy :=
    Py.leb healthy_bf_range.1 bf && Py.leb bf healthy_bf_range.2 in
  let bmi_healthy :=
    Py.leb healthy_bmi_range.1 bmi && Py.leb bmi healthy_bmi_range.2 in
  if bf_healthy && bmi_healthy then "✅ Saudável"
  else if Py.ltb bf healthy_bf_range.1 then "⚠️ Gordura corporal muito baixa"
  else if Py.gtb bf healthy_bf_range.2 then "⚠️ Gordura corporal elevada"
  else if Py.ltb bmi healthy_bmi_range.1 then "⚠️ Peso abaixo do ideal"
  else if Py.gtb bmi healthy_bmi_range.2 then "⚠️ Sobrepeso"
  else "ℹ️ Avaliação individual recomendada".

Definition _get_recommendations (bf bmi : Q) (sex category : string)
  : list string :=
  if String.eqb category "essential" then
    ["⚠️ Consulte um médico - BF muito baixo pode ser prejudicial";
     "Considere aumentar ingestão calórica gradualmente"]%string
  else if String.eqb category "athletic" then
    ["✅ Mantenha treino de força e alimentação balanceada";
     "Monitore hidratação e recuperação muscular"]%string
  else if String.eqb category "fit" then
    ["✅ Continue com hábitos saudáveis atuais";
     "Varie exercícios para manter progresso"]%string
  else if String.eqb category "average" then
    if Py.gtb bf (if is_male sex then 18 else 25) then
      ["Considere aumentar atividade física gradualmente";
       "Ajuste alimentação para déficit calórico leve"]%string
    else []
  else if String.eqb category "overweight" then
    ["Recomendado: exercícios aeróbicos 3-5x/semana";
     "Considere acompanhamento nutricional profissional";
     "Foque em déficit calórico sustentável (300-500 kcal/dia)"]%string
  else [].

Record DetailedAnalysis : Type := {
  bf_percentage : Q;
  da_category : Category;
  body_shape : string;
  shape_description : string;
  estimated_fat_mass_kg : Q;
  estimated_lean_mass_kg : Q;
  health_status : string;
  recommendations : list string
}.

Definition get_detailed_analysis (bf bmi : Q) (sex : string) (age : Z)
    (ratios : dict) : DetailedAnalysis :=
  let bf_category := get_bf_category bf sex in
  let avg_weight :=
    if is_male sex then bmi * 1.75 * 1.75 else bmi * 1.65 * 1.65 in
  let fat_mass := avg_weight * (bf / 100) in
  let lean_mass := avg_weight - fat_mass in
  let waist_to_shoulder := Py.get ratios "waist_to_shoulder" 0.6 in
  let shape :=
    if Py.ltb waist_to_shoulder 0.45 then
      ("Triângulo invertido (V-shape)",
       "Ombros largos, cintura estreita - forma atlética")%string
    else if Py.ltb waist_to_shoulder 0.55 then
      ("Retangular", "Proporções equilibradas")%string
    else if Py.ltb waist_to_shoulder 0.65 then
      ("Oval", "Cintura um pouco mais larga")%string
    else
      ("Circular/Maçã", "Acúmulo de gordura na região abdominal")%string in
  {| bf_percentage := bf;
     da_category := bf_category;
     body_shape := shape.1;
     shape_description := shape.2;
     estimated_fat_mass_kg := Py.round fat_mass 1;
     estimated_lean_mass_kg := Py.round lean_mass 1;
     health_status := _get_health_status bf bmi sex age;
     recommendations :=
       _get_recommendations bf bmi sex (category bf_category) |}.

(** ** bf_features.py *)




Definition required_features : list string :=
  ["age"; "bmi"; "sex"; "shoulder_width"; "hip_width"; "height_ratio";
   "waist_ratio"; "volume_indicator"; "waist_prominence"]%string.

Definition validate_features (features : dict) : bool :=
  let missing :=
    List.filter (fun f => negb (bool_decide (is_Some (features !! f))))
      required_features in
  match missing with
  | [] => true
  | _ => false
  end.

(** ** bf_ml.py: BodyFatRegressor.predict

    [model] is the loaded regression model, a function of the row of nine
    features in training order. *)

Definition predict (model : list Q -> Q) (features : dict) : Result Q :=
  age ← Py.getitem features "age";
  bmi ← Py.getitem features "bmi";
  sex ← Py.getitem features "sex";
  shoulder_width ← Py.getitem features "shoulder_width";
  hip_width ← Py.getitem features "hip_width";
  height_ratio ← Py.getitem features "height_ratio";
  waist_ratio ← Py.getitem features "waist_ratio";
  volume_indicator ← Py.getitem features "volume_indicator";
  waist_prominence ← Py.getitem features "waist_prominence";
  let X := [age; bmi; sex; shoulder_width; hip_width; height_ratio;
            waist_ratio; volume_indicator; waist_prominence] in
  let prediction := model X in
  let sex_str := if Qeq_bool sex 1 then "male"%string else "female"%string in
  let prediction :=
    if String.eqb sex_str "male" then Py.max 5.0 (Py.min prediction 45.0)
    else Py.max 12.0 (Py.min prediction 50.0) in
  Ok (Py.round prediction 1).

(** ** estimate_sex_and_age.py *)

Definition _normalize_sex (sex : string) : string :=
  let sex_lower := lower sex in
  if string_in sex_lower male_words then "male"
  else if string_in sex_lower female_words then "female"
  else sex_lower.

(** The warnings, with the values they are formatted from. *)
Inductive ValidationWarning : Type :=
| SexMismatch (sex_label user_sex_normalized : string) (confidence : Q)
| SexLowConfidence
| AgeMismatch (detected_age user_age age_diff : Z)
| SmallAgeDifference (detected_age user_age : Z).

Record UserValidation : Type := {
  performed : bool;
  sex_match : bool;
  age_match : bool;
  uv_detected_sex : string;
  uv_detected_age : Z;
  uv_confidence : Q;
  warnings : list ValidationWarning
}.

Definition _validate_against_user_data (detected_sex : string)
    (detected_age : Z) (user_sex : string) (user_age : Z) (confidence : Q)
  : UserValidation :=
  let warnings := [] in
  let user_sex_normalized := _normalize_sex user_sex in
  let sex_match := String.eqb detected_sex user_sex_normalized in
  let warnings :=
    if negb sex_match && Py.geb confidence 0.6 then
      let sex_label :=
        if String.eqb detected_sex "male" then "masculino"%string
        else "feminino"%string in
      warnings ++ [SexMismatch sex_label user_sex_normalized confidence]
    else if negb sex_match && Py.ltb confidence 0.6 then
      warnings ++ [SexLowConfidence]
    else warnings in
  let age_diff := Z.abs (detected_age - user_age) in
  let age_match := (age_diff <=? 5)%Z in
  let warnings :=
    if (10 <? age_diff)%Z then
      warnings ++ [AgeMismatch detected_age user_age age_diff]
    else if (5 <? age_diff)%Z then
      warnings ++ [SmallAgeDifference detected_age user_age]
    else warnings in
  {| performed := true;
     sex_match := sex_match;
     age_match := age_match;
     uv_detected_sex := detected_sex;
     uv_detected_age := detected_age;
     uv_confidence := confidence;
     warnings := warnings |}.

(** ** main.py: the basic checks of the endpoint

    The checks on the form fields that open [estimate_body]; a failed check
    raises [HTTPException(status_code=400)] with the detail given.  On
    success the lowered [sex] is what the rest of the endpoint uses. *)

Inductive HttpError : Type :=
| BadRequest (detail : string).

Definition basic_checks (sex : string) (age : Z) (weight_kg height_cm : Q)
  : HttpError + string :=
  let sex := lower sex in
  if negb (string_in sex ["male"; "female"]%string) then
    inl (BadRequest "Sexo deve ser 'male' ou 'female'.")
  else if negb ((16 <=? age)%Z && (age <=? 100)%Z) then
    inl (BadRequest "Idade deve estar entre 16 e 100 anos.")
  else if negb (Py.leb 30 weight_kg && Py.leb weight_kg 300) then
    inl (BadRequest "Peso deve estar entre 30 e 300 kg.")
  else if negb (Py.leb 100 height_cm && Py.leb height_cm 250) then
    inl (BadRequest "Altura deve estar entre 100 e 250 cm.")
  else inr sex.

(** * Further inputs and predicates used in the statements *)

(** One of the four override rules of the validator applies. *)
Definition validator_triggered (bf bmi : Q) (measurements ratios : dict)
  : Prop :=
  let w := Py.get ratios "waist_to_shoulder" 0.6 in
  let vol := Py.get measurements "volume_indicator" 0.15 in
  (bmi < 22 /\ 20 < bf)
  \/ (w < 0.50 /\ 0.20 < vol /\ 20 <= bmi /\ bmi <= 26 /\ 18 < bf)
  \/ (28 < bmi /\ bf < 20)
  \/ (0.70 < w /\ bf < 22).

Definition waist_072 : dict := <["waist_to_shoulder" := 0.72]> ∅.

Definition texture_without_vascularity : dict :=
  <["definition_score" := 0.5]> (<["abs_visibility" := 0.5]> ∅).

(** The first of the three scores read by the texture estimator that is
    missing from the texture signals, if any. *)
Definition first_missing_score (texture_data : dict) : option string :=
  if negb (bool_decide (is_Some (texture_data !! "definition_score")))
  then Some "definition_score"%string
  else if negb (bool_decide (is_Some (texture_data !! "abs_visibility")))
  then Some "abs_visibility"%string
  else if negb (bool_decide (is_Some (texture_data !! "vascularity")))
  then Some "vascularity"%string
  else None.


(** The bounds that [predict] applies: those of a man when the encoded
    sex is 1, those of a woman otherwise. *)
Definition within_encoded_bounds (sex_encoded p : Q) : Prop :=
  if Qeq_bool sex_encoded 1 then 5 <= p /\ p <= 45
  else 12 <= p /\ p <= 50.

(** A regression model that answers 60 whatever the features. *)
Definition constant_model : list Q -> Q := fun _ => 60.

Definition features_without_bmi : dict :=
  <["age" := 30]> (<["sex" := 1]> ∅).

(** * Properties *)

(** ** Comparisons, [min], [max], [abs] *)

Section Comparisons.

Lemma ltb_true (x y : Q) : Py.ltb x y = true <-> x < y.
Proof.
  unfold Py.ltb. rewrite Qlt_alt.
  destruct (Qcompare x y); split; congruence.
Qed.

Lemma ltb_false (x y : Q) : Py.ltb x y = false <-> y <= x.
Proof.
  unfold Py.ltb. rewrite Qge_alt.
  destruct (Qcompare x y); split; congruence.
Qed.

Lemma leb_true (x y : Q) : Py.leb x y = true <-> x <= y.
Proof. apply Qle_bool_iff. Qed.

Lemma leb_false (x y : Q) : Py.leb x y = false <-> y < x.
Proof.
  unfold Py.leb. split; intros H.
  - apply Qnot_le_lt. intros Hle. apply Qle_bool_iff in Hle. congruence.
  - destruct (Qle_bool x y) eqn:E; [|reflexivity].
    apply Qle_bool_iff in E. lra.
Qed.

Lemma ltb_spec (x y : Q) : reflect (x < y) (Py.ltb x y).
Proof.
  destruct (Py.ltb x y) eqn:E; constructor.
  - now apply ltb_true.
  - apply ltb_false in E. lra.
Qed.

Lemma leb_spec (x y : Q) : reflect (x <= y) (Py.leb x y).
Proof.
  destruct (Py.leb x y) eqn:E; constructor.
  - now apply leb_true.
  - apply leb_false in E. lra.
Qed.

End Comparisons.

(** Case analysis on every comparison in sight, leaving linear
    arithmetic. *)
Ltac compare_step :=
  match goal with
  | |- context [Py.ltb ?a ?b] =>
      let E := fresh "E" in
      destruct (Py.ltb a b) eqn:E;
      [apply ltb_true in E | apply ltb_false in E]
  | |- context [Py.leb ?a ?b] =>
      let E := fresh "E" in
      destruct (Py.leb a b) eqn:E;
      [apply leb_true in E | apply leb_false in E]
  | H : context [Py.ltb ?a ?b] |- _ =>
      let E := fresh "E" in
      destruct (Py.ltb a b) eqn:E;
      [apply ltb_true in E | apply ltb_false in E]
  | H : context [Py.leb ?a ?b] |- _ =>
      let E := fresh "E" in
      destruct (Py.leb a b) eqn:E;
      [apply leb_true in E | apply leb_false in E]
  end.

Ltac compare_cases :=
  unfold Py.max, Py.min, Py.abs, Py.gtb, Py.geb in *;
  repeat (compare_step; simpl in *; try lra; try discriminate).

Section MinMaxAbs.

Lemma max_min_bounds (lo hi x : Q) :
  lo <= hi -> lo <= Py.max lo (Py.min x hi) /\ Py.max lo (Py.min x hi) <= hi.
Proof. intros. compare_cases. Qed.

Lemma max_min_id (lo hi x : Q) :
  lo <= x -> x <= hi -> Py.max lo (Py.min x hi) == x.
Proof. intros. compare_cases. Qed.

Lemma max_min_mono (lo hi x y : Q) :
  x <= y -> Py.max lo (Py.min x hi) <= Py.max lo (Py.min y hi).
Proof. intros. compare_cases. Qed.

Lemma abs_nonneg (x : Q) : 0 <= Py.abs x.
Proof. compare_cases. Qed.

End MinMaxAbs.

(** ** Rounding *)

Section Rounding.

Lemma floor_bounds (x : Q) :
  inject_Z (Qfloor x) <= x /\ x < inject_Z (Qfloor x) + 1.
Proof.
  split; [apply Qfloor_le|].
  pose proof (Qlt_floor x) as H. rewrite inject_Z_plus in H. exact H.
Qed.

Lemma floor_unique (x : Q) (n : Z) :
  inject_Z n <= x -> x < inject_Z n + 1 -> Qfloor x = n.
Proof.
  intros Hlo Hhi. destruct (floor_bounds x) as [Flo Fhi].
  assert (H1 : inject_Z n < inject_Z (Qfloor x + 1)).
  { rewrite inject_Z_plus. change (inject_Z 1) with 1. lra. }
  assert (H2 : inject_Z (Qfloor x) < inject_Z (n + 1)).
  { rewrite inject_Z_plus. change (inject_Z 1) with 1. lra. }
  rewrite <- Zlt_Qlt in H1, H2. lia.
Qed.

Lemma round_half_even_cases (x : Q) :
  let f := Qfloor x in
  (x - inject_Z f < 1 # 2 /\ Py.round_half_even x = f)
  \/ (1 # 2 < x - inject_Z f /\ Py.round_half_even x = (f + 1)%Z)
  \/ (x - inject_Z f == 1 # 2
      /\ Py.round_half_even x = (if Z.even f then f else f + 1)%Z).
Proof.
  intros f. unfold Py.round_half_even. fold f.
  destruct (Qcompare (x - inject_Z f) (1 # 2)) eqn:E.
  - right; right. split; [now apply Qeq_alt | reflexivity].
  - left. split; [now apply Qlt_alt | reflexivity].
  - right; left. split; [now apply Qgt_alt | reflexivity].
Qed.

Lemma round_half_even_near (x : Q) :
  inject_Z (Py.round_half_even x) - (1 # 2) <= x
  /\ x <= inject_Z (Py.round_half_even x) + (1 # 2).
Proof.
  destruct (floor_bounds x) as [Flo Fhi].
  destruct (round_half_even_cases x) as [[H ->]|[[H ->]|[H ->]]].
  - lra.
  - rewrite inject_Z_plus. change (inject_Z 1) with 1. lra.
  - destruct (Z.even (Qfloor x));
      [|rewrite inject_Z_plus; change (inject_Z 1) with 1]; lra.
Qed.

Lemma round_half_even_comp (x y : Q) :
  x == y -> Py.round_half_even x = Py.round_half_even y.
Proof.
  intros H. unfold Py.round_half_even.
  rewrite (Qfloor_comp _ _ H).
  assert (Hc : Qcompare (x - inject_Z (Qfloor y)) (1 # 2)
               = Qcompare (y - inject_Z (Qfloor y)) (1 # 2)).
  { apply Qcompare_comp; [rewrite H|]; reflexivity. }
  rewrite Hc. reflexivity.
Qed.

Lemma round_half_even_mono (x y : Q) :
  x <= y -> (Py.round_half_even x <= Py.round_half_even y)%Z.
Proof.
  intros Hxy.
  pose proof (Qfloor_resp_le _ _ Hxy) as Hf.
  destruct (floor_bounds x) as [Xlo Xhi].
  destruct (floor_bounds y) as [Ylo Yhi].
  destruct (Z.eq_dec (Qfloor x) (Qfloor y)) as [Heq|Hne].
  - destruct (round_half_even_cases x) as [[Hx ->]|[[Hx ->]|[Hx ->]]];
    destruct (round_half_even_cases y) as [[Hy ->]|[[Hy ->]|[Hy ->]]];
    rewrite <- ?Heq in *; try destruct (Z.even (Qfloor x)); try lia; lra.
  - assert (Py.round_half_even x <= Qfloor x + 1)%Z.
    { destruct (round_half_even_cases x) as [[_ ->]|[[_ ->]|[_ ->]]];
      try destruct (Z.even (Qfloor x)); lia. }
    assert (Qfloor y <= Py.round_half_even y)%Z.
    { destruct (round_half_even_cases y) as [[_ ->]|[[_ ->]|[_ ->]]];
      try destruct (Z.even (Qfloor y)); lia. }
    lia.
Qed.

Lemma round_half_even_Z (n : Z) : Py.round_half_even (inject_Z n) = n.
Proof.
  unfold Py.round_half_even. rewrite Qfloor_Z.
  assert (H : Qcompare (inject_Z n - inject_Z n) (1 # 2) = Lt).
  { apply (proj1 (Qlt_alt _ _)). lra. }
  now rewrite H.
Qed.

(** Adding an even integer commutes with rounding: ties stay ties and the
    parity of the floor is kept. *)
Lemma round_half_even_shift (x : Q) (k : Z) :
  Py.round_half_even (x + inject_Z (2 * k))
  = (Py.round_half_even x + 2 * k)%Z.
Proof.
  destruct (floor_bounds x) as [Flo Fhi].
  assert (Hf : Qfloor (x + inject_Z (2 * k)) = (Qfloor x + 2 * k)%Z).
  { apply floor_unique; rewrite inject_Z_plus;
      generalize (inject_Z (2 * k)); intros q; lra. }
  unfold Py.round_half_even. rewrite Hf.
  assert (Hc : Qcompare (x + inject_Z (2 * k) - inject_Z (Qfloor x + 2 * k))
                 (1 # 2)
               = Qcompare (x - inject_Z (Qfloor x)) (1 # 2)).
  { apply Qcompare_comp; [|reflexivity].
    rewrite inject_Z_plus.
    generalize (inject_Z (2 * k)), (inject_Z (Qfloor x)). intros p q. ring. }
  rewrite Hc.
  replace (Z.even (Qfloor x + 2 * k)) with (Z.even (Qfloor x)).
  - destruct (Qcompare (x - inject_Z (Qfloor x)) (1 # 2));
      try destruct (Z.even (Qfloor x)); lia.
  - rewrite Z.even_add_mul_2. reflexivity.
Qed.

(** Rounding is odd: ties go to the even neighbour on both sides of zero. *)
Lemma round_half_even_opp (x : Q) :
  Py.round_half_even (- x) = (- Py.round_half_even x)%Z.
Proof.
  destruct (floor_bounds x) as [Flo Fhi].
  destruct (Qeq_dec x (inject_Z (Qfloor x))) as [Hint|Hfrac].
  - rewrite (round_half_even_comp x _ Hint).
    assert (Hn : - x == inject_Z (- Qfloor x)).
    { rewrite inject_Z_opp. rewrite <- Hint. reflexivity. }
    rewrite (round_half_even_comp _ _ Hn).
    now rewrite !round_half_even_Z.
  - assert (Hi : inject_Z (- Qfloor x - 1) == - inject_Z (Qfloor x) - 1).
    { unfold Qeq. simpl. lia. }
    assert (Hlt : inject_Z (Qfloor x) < x).
    { apply Qle_lteq in Flo. destruct Flo as [Hlt|Heq]; [exact Hlt|].
      exfalso. apply Hfrac. symmetry. exact Heq. }
    assert (Hf : Qfloor (- x) = (- Qfloor x - 1)%Z).
    { apply floor_unique; rewrite Hi; lra. }
    destruct (round_half_even_cases x) as [[Hx ->]|[[Hx ->]|[Hx ->]]];
    destruct (round_half_even_cases (- x)) as [[Hy ->]|[[Hy ->]|[Hy ->]]];
    rewrite Hf in *; rewrite ?Hi in Hy; try lra; try lia.
    replace (Z.even (- Qfloor x - 1)) with (negb (Z.even (Qfloor x))).
    + destruct (Z.even (Qfloor x)); simpl; lia.
    + replace (- Qfloor x - 1)%Z with (- (Qfloor x + 1))%Z by lia.
      rewrite Z.even_opp, Z.even_add. simpl.
      destruct (Z.even (Qfloor x)); reflexivity.
Qed.

Lemma Qmake_scale (z : Z) (d : positive) : z # d == inject_Z z * (1 # d).
Proof. unfold Qeq. simpl. lia. Qed.

Lemma Qmake_le (z z' : Z) (d : positive) : (z <= z')%Z -> z # d <= z' # d.
Proof. intros H. unfold Qle. simpl. nia. Qed.

Lemma round_comp (x y : Q) (n : nat) : x == y -> Py.round x n = Py.round y n.
Proof.
  intros H. unfold Py.round. f_equal.
  apply round_half_even_comp. now rewrite H.
Qed.

Lemma round_mono (x y : Q) (n : nat) :
  x <= y -> Py.round x n <= Py.round y n.
Proof.
  intros H. unfold Py.round. apply Qmake_le, round_half_even_mono.
  apply Qmult_le_compat_r; [exact H|].
  unfold Qle. simpl. lia.
Qed.

Lemma round_half_even_Z_scaled (z : Z) (d : positive) :
  Py.round_half_even (inject_Z z * inject_Z (Z.pos d)) = (z * Z.pos d)%Z.
Proof.
  rewrite <- inject_Z_mult. apply round_half_even_Z.
Qed.

(** Integers are on every decimal grid. *)
Lemma round_Z (z : Z) (n : nat) : Py.round (inject_Z z) n == inject_Z z.
Proof.
  unfold Py.round. rewrite round_half_even_Z_scaled.
  unfold Qeq. simpl. lia.
Qed.

(** A value between two points of the decimal grid is rounded to a value
    between them. *)
Lemma round_between (lo hi x : Q) (n : nat) :
  Py.round lo n == lo -> Py.round hi n == hi ->
  lo <= x -> x <= hi -> lo <= Py.round x n /\ Py.round x n <= hi.
Proof.
  intros Hlo Hhi H1 H2. split.
  - rewrite <- Hlo. now apply round_mono.
  - rewrite <- Hhi. now apply round_mono.
Qed.

Lemma round_opp (x : Q) (n : nat) : Py.round (- x) n == - Py.round x n.
Proof.
  unfold Py.round.
  assert (H : - x * inject_Z (Z.pos (Py.pow10 n))
              == - (x * inject_Z (Z.pos (Py.pow10 n)))) by ring.
  rewrite (round_half_even_comp _ _ H), round_half_even_opp.
  unfold Qeq. simpl. lia.
Qed.

(** Moving by an even number of grid steps commutes with rounding. *)
Lemma round_shift (x : Q) (n : nat) (k : Z) :
  Py.round (x + (2 * k # Py.pow10 n)) n
  == Py.round x n + (2 * k # Py.pow10 n).
Proof.
  unfold Py.round.
  assert (H : (x + (2 * k # Py.pow10 n)) * inject_Z (Z.pos (Py.pow10 n))
              == x * inject_Z (Z.pos (Py.pow10 n)) + inject_Z (2 * k)).
  { rewrite Qmult_plus_distr_l. apply Qplus_comp; [reflexivity|].
    unfold Qeq. simpl. lia. }
  rewrite (round_half_even_comp _ _ H), round_half_even_shift.
  unfold Qeq, Qplus. simpl. nia.
Qed.

Lemma round_near_1 (x : Q) :
  Py.round x 1 - 0.05 <= x /\ x <= Py.round x 1 + 0.05.
Proof.
  unfold Py.round.
  pose proof (round_half_even_near (x * inject_Z (Z.pos (Py.pow10 1)))) as H.
  rewrite Qmake_scale. change (inject_Z (Z.pos (Py.pow10 1))) with 10 in *.
  change (1 # Py.pow10 1) with 0.1. lra.
Qed.

Lemma round_near_2 (x : Q) :
  Py.round x 2 - 0.005 <= x /\ x <= Py.round x 2 + 0.005.
Proof.
  unfold Py.round.
  pose proof (round_half_even_near (x * inject_Z (Z.pos (Py.pow10 2)))) as H.
  rewrite Qmake_scale. change (inject_Z (Z.pos (Py.pow10 2))) with 100 in *.
  change (1 # Py.pow10 2) with 0.01. lra.
Qed.

Lemma round_near_3 (x : Q) :
  Py.round x 3 - 0.0005 <= x /\ x <= Py.round x 3 + 0.0005.
Proof.
  unfold Py.round.
  pose proof (round_half_even_near (x * inject_Z (Z.pos (Py.pow10 3)))) as H.
  rewrite Qmake_scale. change (inject_Z (Z.pos (Py.pow10 3))) with 1000 in *.
  change (1 # Py.pow10 3) with 0.001. lra.
Qed.

(** Two weights that add up to one still do after rounding to three
    decimals: the two roundings err in opposite directions, ties
    included. *)
Lemma round_complement (x y : Q) :
  x + y == 1 -> Py.round x 3 + Py.round y 3 == 1.
Proof.
  intros H.
  assert (E : (2 * 500 # Py.pow10 3) == 1) by reflexivity.
  assert (Hy : y == - x + (2 * 500 # Py.pow10 3)).
  { rewrite E. lra. }
  rewrite (round_comp _ _ 3 Hy), round_shift, round_opp, E. ring.
Qed.

Lemma round_plus_one (x : Q) : Py.round (x + 1) 1 == Py.round x 1 + 1.
Proof.
  assert (E : (2 * 5 # Py.pow10 1) == 1) by reflexivity.
  assert (H : x + 1 == x + (2 * 5 # Py.pow10 1)).
  { rewrite E. reflexivity. }
  rewrite (round_comp _ _ 1 H), round_shift, E. reflexivity.
Qed.

End Rounding.

(** ** Ratio calculator *)

Section RatioCalculator.

(** C6, as stated, fails: with [shoulder_width] missing the lookup raises
    [KeyError] before any division takes place. *)
Lemma ratios_missing_shoulder_is_key_error :
  measurements_without_shoulder !! "shoulder_width" = None
  /\ calculate_body_ratios measurements_without_shoulder
     = Raise (KeyError "shoulder_width")
  /\ calculate_body_ratios measurements_without_shoulder
     <> Raise ZeroDivisionError.
Proof. split; [|split]; [reflexivity | reflexivity | discriminate]. Qed.

Lemma div_zero (a b : Q) : b == 0 -> Py.div a b = Raise ZeroDivisionError.
Proof. intros H. unfold Py.div. now rewrite (Qeq_eq_bool _ _ H). Qed.

Lemma div_nonzero (a b : Q) : ~ b == 0 -> Py.div a b = Ok (a / b).
Proof.
  intros H. unfold Py.div.
  destruct (Qeq_bool b 0) eqn:E; [|reflexivity].
  apply Qeq_bool_eq in E. contradiction.
Qed.

Lemma ratios_returned (m : dict) (w s h t : Q) :
  m !! "waist_width" = Some w -> m !! "shoulder_width" = Some s ->
  ~ s == 0 ->
  m !! "hip_width" = Some h -> m !! "torso_height" = Some t ->
  calculate_body_ratios m
  = Ok {| r_waist_to_shoulder := w / s;
          r_hip_to_shoulder := h / s;
          r_torso_to_shoulder := t / s |}.
Proof.
  intros Hw Hs Hne Hh Ht. unfold calculate_body_ratios, Py.getitem.
  rewrite Hw, Hs, Hh, Ht. simpl. rewrite !(div_nonzero _ _ Hne).
  reflexivity.
Qed.

(** C6 (amended): a zero [shoulder_width] raises [ZeroDivisionError], a
    missing one raises [KeyError] (in both cases once [waist_width], which
    is read first, is present), and with the four keys present and a
    non-zero [shoulder_width] the three ratios are returned. *)
Theorem ratio_calculator_outcomes (m : dict) (w : Q) :
  m !! "waist_width" = Some w ->
  (m !! "shoulder_width" = None ->
   calculate_body_ratios m = Raise (KeyError "shoulder_width"))
  /\ (forall s, m !! "shoulder_width" = Some s -> s == 0 ->
      calculate_body_ratios m = Raise ZeroDivisionError)
  /\ (forall s h t,
      m !! "shoulder_width" = Some s -> ~ s == 0 ->
      m !! "hip_width" = Some h -> m !! "torso_height" = Some t ->
      calculate_body_ratios m
      = Ok {| r_waist_to_shoulder := w / s;
              r_hip_to_shoulder := h / s;
              r_torso_to_shoulder := t / s |}).
Proof.
  intros Hw. split; [|split].
  - intros Hs. unfold calculate_body_ratios, Py.getitem.
    rewrite Hw, Hs. reflexivity.
  - intros s Hs Hz. unfold calculate_body_ratios, Py.getitem.
    rewrite Hw, Hs. simpl. rewrite (div_zero _ _ Hz). reflexivity.
  - intros s h t Hs Hne Hh Ht. now apply ratios_returned.
Qed.

Lemma ratio_calculator_outcomes_witness :
  calculate_body_ratios measurements_without_shoulder
  = Raise (KeyError "shoulder_width")
  /\ calculate_body_ratios measurements_zero_shoulder
     = Raise ZeroDivisionError
  /\ calculate_body_ratios measurements_complete
     = Ok {| r_waist_to_shoulder := 0.3 / 0.5;
             r_hip_to_shoulder := 0.3 / 0.5;
             r_torso_to_shoulder := 0.5 / 0.5 |}.
Proof.
  split; [|split].
  - apply (ratio_calculator_outcomes measurements_without_shoulder 0.3);
      reflexivity.
  - apply (ratio_calculator_outcomes measurements_zero_shoulder 0.3
             eq_refl) with (s := 0); reflexivity.
  - apply (ratio_calculator_outcomes measurements_complete 0.3 eq_refl);
      [reflexivity | discriminate | reflexivity | reflexivity].
Defined.

End RatioCalculator.

(** ** Body-type classifier *)

Section Classifier.

(** C3, as stated, fails: the muscular test comes first and does not look
    at the BMI. *)
Lemma classify_high_bmi_muscular :
  28 <= 30 /\ classify_body_type narrow_ratios "male" (Some 30) = "muscular".
Proof. split; [discriminate | reflexivity]. Qed.

Lemma bmi_at_least_28_true (bmi : Q) :
  28 <= bmi -> bmi_at_least_28 (Some bmi) = true.
Proof.
  intros H. unfold bmi_at_least_28.
  destruct (Qeq_bool bmi 0) eqn:E.
  - apply Qeq_bool_eq in E. lra.
  - simpl. now apply leb_true.
Qed.

(** C3 (amended): with a BMI of at least 28 the classifier answers
    "overweight" unless both ratios are below the muscular thresholds of
    the sex, in which case it answers "muscular". *)
Theorem classify_high_bmi (ratios : dict) (sex : string) (bmi : Q) :
  28 <= bmi ->
  classify_body_type ratios sex (Some bmi)
  = if Py.ltb (Py.get ratios "waist_to_shoulder" 0) (muscular_waist_limit sex)
       && Py.ltb (Py.get ratios "hip_to_shoulder" 0) (muscular_hip_limit sex)
    then "muscular" else "overweight".
Proof.
  intros H. unfold classify_body_type, muscular_waist_limit, muscular_hip_limit.
  rewrite (bmi_at_least_28_true _ H), !orb_true_r.
  destruct (String.eqb sex "female"); reflexivity.
Qed.

Lemma classify_high_bmi_witness :
  classify_body_type narrow_ratios "male" (Some 30) = "muscular"
  /\ classify_body_type middle_ratios "female" (Some 28) = "overweight".
Proof.
  split.
  - rewrite (classify_high_bmi narrow_ratios "male" 30); [reflexivity|].
    discriminate.
  - rewrite (classify_high_bmi middle_ratios "female" 28); [reflexivity|].
    discriminate.
Defined.

End Classifier.

(** ** Physiological validator *)

Section Validator.

Lemma clamp_within_bounds (sex : string) (x : Q) :
  within_sex_bounds sex (clamp_to_sex_bounds sex x).
Proof.
  unfold within_sex_bounds, clamp_to_sex_bounds.
  destruct (is_male sex); apply max_min_bounds; lra.
Qed.

Lemma clamp_mono (sex : string) (x y : Q) :
  x <= y -> clamp_to_sex_bounds sex x <= clamp_to_sex_bounds sex y.
Proof.
  intros H. unfold clamp_to_sex_bounds.
  destruct (is_male sex); now apply max_min_mono.
Qed.

Lemma round_within_bounds (sex : string) (x : Q) (n : nat) :
  within_sex_bounds sex x -> within_sex_bounds sex (Py.round x n).
Proof.
  unfold within_sex_bounds.
  destruct (is_male sex); intros [Hlo Hhi]; apply round_between;
    try assumption; apply (round_Z _ n).
Qed.

(** Whatever the rules did, the validated value is within the bounds of
    the sex. *)
Lemma validated_within_bounds (bf bmi : Q) (sex : string) (ms rs : dict) :
  within_sex_bounds sex (adjusted_bf (validate_and_adjust_bf bf bmi sex ms rs)).
Proof.
  unfold validate_and_adjust_bf. simpl.
  apply round_within_bounds, clamp_within_bounds.
Qed.

(** C9, as stated, fails: with a narrow waist and a high volume indicator
    the athletic rule overwrites the low-BMI replacement, here with 17. *)
Lemma validator_athletic_overwrites_low_bmi :
  let v := validate_and_adjust_bf 30 20 "male" athletic_measurements
             athletic_ratios in
  was_adjusted v = true /\ adjusted_bf v == 17 /\ ~ adjusted_bf v <= 16.
Proof.
  split; [reflexivity|]. split; [reflexivity|].
  intros H. vm_compute in H. apply H. reflexivity.
Qed.

(** C9 (amended): for a man with BMI 20 and candidate estimate 30 the
    validator always reports [was_adjusted = true]; the adjusted value is
    12, hence in [8, 16], unless the athletic signature holds (waist to
    shoulder below 0.50 and volume indicator above 0.20), in which case it
    is 8 + 20 * waist_to_shoulder, clamped and rounded; in every case it
    lies in [5, 18]. *)
Theorem validator_low_bmi_override (measurements ratios : dict) :
  let v := validate_and_adjust_bf 30 20 "male" measurements ratios in
  was_adjusted v = true
  /\ 5 <= adjusted_bf v /\ adjusted_bf v <= 18
  /\ (is_athletic (Py.get ratios "waist_to_shoulder" 0.6)
         (Py.get measurements "volume_indicator" 0.15) 20 = false ->
      adjusted_bf v == 12)
  /\ (is_athletic (Py.get ratios "waist_to_shoulder" 0.6)
         (Py.get measurements "volume_indicator" 0.15) 20 = true ->
      adjusted_bf v
      = Py.round (clamp_to_sex_bounds "male"
                    (8 + Py.get ratios "waist_to_shoulder" 0.6 * 20)) 1).
Proof.
  unfold validate_and_adjust_bf.
  set (w := Py.get ratios "waist_to_shoulder" 0.6).
  set (vol := Py.get measurements "volume_indicator" 0.15).
  assert (Hlow : rule_low_bmi 30 20 "male"
                   {| vs_adjusted_bf := 30; vs_was_adjusted := false;
                      vs_reason := NoReason |}
                 = {| vs_adjusted_bf := 8 + (20 - 18) * 2;
                      vs_was_adjusted := true;
                      vs_reason := BmiTooLow 20 |}) by reflexivity.
  rewrite Hlow. clear Hlow.
  assert (Hhigh : forall st, rule_high_bmi 30 20 "male" st = st)
    by reflexivity.
  assert (Hwide : forall st, rule_wide_waist 30 "male" w st = st).
  { intros st. unfold rule_wide_waist.
    replace (Py.ltb 30 22) with false by reflexivity.
    now rewrite andb_false_r. }
  rewrite Hhigh, Hwide. clear Hhigh Hwide.
  unfold rule_athletic.
  replace (Py.gtb 30 18) with true by reflexivity. rewrite andb_true_r.
  destruct (is_athletic w vol 20) eqn:Hath; cbn [adjusted_bf was_adjusted
    vs_adjusted_bf vs_was_adjusted].
  - split; [reflexivity|].
    assert (Hw : w < 0.50).
    { unfold is_athletic in Hath.
      apply andb_true_iff in Hath as [Hath _].
      apply andb_true_iff in Hath as [Hath _].
      now apply ltb_true in Hath. }
    assert (Hb : 5 <= Py.round (clamp_to_sex_bounds "male" (8 + w * 20)) 1
                 /\ Py.round (clamp_to_sex_bounds "male" (8 + w * 20)) 1
                    <= 18).
    { apply round_between; try reflexivity;
        unfold clamp_to_sex_bounds; simpl is_male; cbv iota;
        compare_cases. }
    destruct Hb as [Hb1 Hb2]. repeat split; try assumption. discriminate.
  - split; [reflexivity|].
    assert (E : Py.round (clamp_to_sex_bounds "male" (8 + (20 - 18) * 2)) 1
                == 12) by reflexivity.
    split; [rewrite E; lra|]. split; [rewrite E; lra|].
    split; [intros _; exact E | discriminate].
Qed.

Lemma validator_low_bmi_override_witness :
  adjusted_bf (validate_and_adjust_bf 30 20 "male" ∅ ∅) == 12
  /\ adjusted_bf (validate_and_adjust_bf 30 20 "male" athletic_measurements
                    athletic_ratios)
     = Py.round (clamp_to_sex_bounds "male" (8 + 0.45 * 20)) 1.
Proof.
  split.
  - apply (validator_low_bmi_override ∅ ∅). reflexivity.
  - apply (validator_low_bmi_override athletic_measurements athletic_ratios).
    reflexivity.
Defined.

End Validator.

(** ** Rule-based estimator *)

Section RuleBasedEstimator.

Lemma uneven_generator_ok : generator_ok uneven_generator.
Proof. intros [|n]; simpl; lra. Qed.

(** C5, as stated, fails: the noise is drawn from the process-wide
    generator inside the function, so two successive calls with identical
    inputs return 13.4 and then 12.6. *)
Lemma estimate_body_fat_not_repeatable :
  let (a, g1) :=
    estimate_body_fat "lean" 23 "male" (Some waist_060) None
      uneven_generator in
  let (b, _) := estimate_body_fat "lean" 23 "male" (Some waist_060) None g1 in
  a == 13.4 /\ b == 12.6 /\ ~ a == b.
Proof. vm_compute. repeat split; discriminate. Qed.

Lemma uniform_noise_range (g : RandomState) :
  generator_ok g ->
  - 0.5 <= (random_uniform (-0.5) 0.5 g).1
  /\ (random_uniform (-0.5) 0.5 g).1 < 0.5.
Proof.
  intros Hg. destruct (Hg (position g)) as [H0 H1].
  unfold random_uniform, random_random. simpl. lra.
Qed.

Lemma uniform_advances (g : RandomState) :
  (random_uniform (-0.5) 0.5 g).2
  = {| draws := draws g; position := S (position g) |}.
Proof. reflexivity. Qed.

Lemma advanced_generator_ok (g : RandomState) :
  generator_ok g -> generator_ok (random_uniform (-0.5) 0.5 g).2.
Proof. intros Hg n. apply Hg. Qed.

Lemma clamp_plus_one (sex : string) (x : Q) :
  clamp_to_sex_bounds sex (x + 1) <= clamp_to_sex_bounds sex x + 1.
Proof. unfold clamp_to_sex_bounds. destruct (is_male sex); compare_cases. Qed.

Lemma body_fat_with_noise_comp (bt : string) (bmi : Q) (sex : string)
    (rs ms : option dict) (n1 n2 : Q) :
  n1 == n2 ->
  body_fat_with_noise bt bmi sex rs ms n1
  = body_fat_with_noise bt bmi sex rs ms n2.
Proof.
  intros H. unfold body_fat_with_noise. apply round_comp.
  unfold clamp_to_sex_bounds. destruct (is_male sex); compare_cases.
Qed.

Lemma body_fat_with_noise_mono (bt : string) (bmi : Q) (sex : string)
    (rs ms : option dict) (n1 n2 : Q) :
  n1 <= n2 ->
  body_fat_with_noise bt bmi sex rs ms n1
  <= body_fat_with_noise bt bmi sex rs ms n2.
Proof.
  intros H. unfold body_fat_with_noise. apply round_mono, clamp_mono. lra.
Qed.

(** Noise that moves by at most one moves the estimate by at most one. *)
Lemma body_fat_with_noise_spread (bt : string) (bmi : Q) (sex : string)
    (rs ms : option dict) (n1 n2 : Q) :
  n1 <= n2 -> n2 <= n1 + 1 ->
  body_fat_with_noise bt bmi sex rs ms n2
  <= body_fat_with_noise bt bmi sex rs ms n1 + 1.
Proof.
  intros H1 H2. unfold body_fat_with_noise.
  set (s := base_body_fat bt sex + bmi_adjustment bmi
            + waist_adjustment sex rs + visual_adjustment ms).
  rewrite <- round_plus_one. apply round_mono.
  apply Qle_trans with (clamp_to_sex_bounds sex (s + n1 + 1)).
  - apply clamp_mono. lra.
  - apply clamp_plus_one.
Qed.

(** C5 (amended): the noise is not a parameter but a draw from the
    process-wide generator, made on every call.  Two successive calls with
    identical inputs return identical outputs when the generator yields the
    same value for both, and in any case outputs that differ by at most
    1. *)
Theorem estimate_body_fat_repeatable_up_to_noise (bt : string) (bmi : Q)
    (sex : string) (rs ms : option dict) (g : RandomState) :
  generator_ok g ->
  let first := estimate_body_fat bt bmi sex rs ms g in
  let second := estimate_body_fat bt bmi sex rs ms first.2 in
  (draws g (position g) == draws g (S (position g)) -> first.1 = second.1)
  /\ first.1 - second.1 <= 1 /\ second.1 - first.1 <= 1.
Proof.
  intros Hg. unfold estimate_body_fat, random_uniform, random_random.
  cbn [fst snd draws position].
  destruct (Hg (position g)) as [A0 A1].
  destruct (Hg (S (position g))) as [B0 B1].
  set (u1 := draws g (position g)) in *.
  set (u2 := draws g (S (position g))) in *.
  split.
  - intros E. apply body_fat_with_noise_comp. now rewrite E.
  - destruct (Qlt_le_dec u1 u2) as [Hlt|Hle].
    + pose proof (body_fat_with_noise_mono bt bmi sex rs ms
                    (-0.5 + (0.5 - -0.5) * u1) (-0.5 + (0.5 - -0.5) * u2)).
      pose proof (body_fat_with_noise_spread bt bmi sex rs ms
                    (-0.5 + (0.5 - -0.5) * u1) (-0.5 + (0.5 - -0.5) * u2)).
      lra.
    + pose proof (body_fat_with_noise_mono bt bmi sex rs ms
                    (-0.5 + (0.5 - -0.5) * u2) (-0.5 + (0.5 - -0.5) * u1)).
      pose proof (body_fat_with_noise_spread bt bmi sex rs ms
                    (-0.5 + (0.5 - -0.5) * u2) (-0.5 + (0.5 - -0.5) * u1)).
      lra.
Qed.

Lemma estimate_body_fat_repeatable_up_to_noise_witness :
  let first :=
    estimate_body_fat "lean" 23 "male" (Some waist_060) None
      uneven_generator in
  let second :=
    estimate_body_fat "lean" 23 "male" (Some waist_060) None first.2 in
  first.1 - second.1 <= 1 /\ second.1 - first.1 <= 1.
Proof.
  apply (estimate_body_fat_repeatable_up_to_noise "lean" 23 "male"
           (Some waist_060) None uneven_generator).
  intros [|n]; simpl; lra.
Defined.

Lemma truthy_lookup (d : dict) (k : string) (v : Q) :
  d !! k = Some v -> truthy (Some d) = true.
Proof.
  intros H. unfold truthy. rewrite bool_decide_eq_false_2; [reflexivity|].
  intros ->. rewrite lookup_empty in H. discriminate.
Qed.

Lemma get_lookup (d : dict) (k : string) (v dflt : Q) :
  d !! k = Some v -> Py.get d k dflt = v.
Proof. intros H. unfold Py.get. now rewrite H. Qed.

Lemma waist_adjustment_mono (sex : string) (r1 r2 : dict) (w1 w2 : Q) :
  r1 !! "waist_to_shoulder" = Some w1 ->
  r2 !! "waist_to_shoulder" = Some w2 ->
  w1 <= w2 ->
  waist_adjustment sex (Some r1) <= waist_adjustment sex (Some r2).
Proof.
  intros H1 H2 H. unfold waist_adjustment.
  rewrite (truthy_lookup _ _ _ H1), (truthy_lookup _ _ _ H2).
  cbn [default]. rewrite (get_lookup _ _ _ _ H1), (get_lookup _ _ _ _ H2).
  destruct (is_male sex); compare_cases.
Qed.

(** C8, as stated, fails: each call draws its own noise, so the call with
    the larger ratio can return the smaller estimate. *)
Lemma larger_waist_smaller_estimate :
  let (a, g1) :=
    estimate_body_fat "lean" 23 "male" (Some waist_060) None
      uneven_generator in
  let (b, _) := estimate_body_fat "lean" 23 "male" (Some waist_061) None g1 in
  a == 13.4 /\ b == 12.6 /\ ~ a <= b.
Proof. vm_compute. repeat split; try discriminate. intros H. now apply H. Qed.

(** C8 (amended): when the two calls draw the same noise value, raising
    [waist_to_shoulder] and keeping everything else never lowers the
    estimate. *)
Theorem waist_monotone_under_equal_noise (bt : string) (bmi : Q)
    (sex : string) (rs : dict) (ms : option dict) (w1 w2 : Q)
    (g1 g2 : RandomState) :
  rs !! "waist_to_shoulder" = Some w1 ->
  w1 <= w2 ->
  draws g1 (position g1) == draws g2 (position g2) ->
  (estimate_body_fat bt bmi sex (Some rs) ms g1).1
  <= (estimate_body_fat bt bmi sex
        (Some (<["waist_to_shoulder" := w2]> rs)) ms g2).1.
Proof.
  intros Hw Hle Hd. unfold estimate_body_fat, random_uniform, random_random.
  cbn [fst snd]. unfold body_fat_with_noise.
  apply round_mono, clamp_mono.
  pose proof (waist_adjustment_mono sex rs
                (<["waist_to_shoulder" := w2]> rs) w1 w2 Hw
                (lookup_insert_eq _ _ _) Hle).
  rewrite Hd. lra.
Qed.

Lemma waist_monotone_under_equal_noise_witness :
  (estimate_body_fat "lean" 23 "male" (Some waist_060) None
     uneven_generator).1
  <= (estimate_body_fat "lean" 23 "male"
        (Some (<["waist_to_shoulder" := 0.61]> waist_060)) None
        uneven_generator).1.
Proof.
  apply (waist_monotone_under_equal_noise "lean" 23 "male" waist_060 None
           0.60 0.61 uneven_generator uneven_generator).
  - reflexivity.
  - discriminate.
  - reflexivity.
Defined.

End RuleBasedEstimator.

(** ** Fusion engine *)

Section FusionEngine.

Lemma getitem_is_Some (d : dict) (k : string) :
  is_Some (d !! k) -> exists v, Py.getitem d k = Ok v.
Proof. intros [v Hv]. exists v. unfold Py.getitem. now rewrite Hv. Qed.

Lemma ml_confidence_positive (ms rs : dict) (bmi : Q) :
  0 < _calculate_ml_confidence ms rs bmi.
Proof.
  unfold _calculate_ml_confidence.
  destruct (_ || _); destruct (_ || _); destruct (_ || _); lra.
Qed.

(** No case lowers the rules confidence below 0.441 or raises it above
    one, and none makes the texture confidence negative. *)
Lemma adjust_confidences_bounds (a o s : bool) (c : Confidence) :
  rules_confidence c == 0.7 -> 0 <= texture_confidence c ->
  0.4 < rules_confidence (adjust_confidences a o s c)
  /\ rules_confidence (adjust_confidences a o s c) <= 1
  /\ 0 <= texture_confidence (adjust_confidences a o s c).
Proof.
  intros Hr Ht.
  unfold adjust_confidences, low_quality_case, suspicious_case,
    overweight_case, athlete_case.
  destruct a, o, s; cbn [rules_confidence texture_confidence];
    compare_cases.
Qed.

Lemma clamped_confidence_bounds (rp tp : Q) (c : Confidence) :
  0.3 <= clamped_confidence rp tp c /\ clamped_confidence rp tp c <= 1.
Proof.
  unfold clamped_confidence.
  pose proof (max_min_bounds 0.3 1.0
                ((1.0 - np_std2 rp tp / 20) * 0.6
                 + (rules_confidence c + texture_confidence c) / 2 * 0.4)).
  lra.
Qed.

Lemma weight_pair (rc tc : Q) :
  0 < rc -> 0 <= tc ->
  0 < rc / (rc + tc) /\ 0 <= tc / (rc + tc)
  /\ rc / (rc + tc) + tc / (rc + tc) == 1.
Proof.
  intros Hr Ht.
  assert (Hpos : 0 < rc + tc) by lra.
  pose proof (Qinv_lt_0_compat _ Hpos) as Hinv.
  unfold Qdiv. repeat split.
  - apply Qmult_lt_0_compat; assumption.
  - apply Qmult_le_0_compat; lra.
  - field. lra.
Qed.

Lemma weight_triple (mc rc tc : Q) :
  0 < mc -> 0 < rc -> 0 <= tc ->
  mc / (mc + rc + tc) + rc / (mc + rc + tc) + tc / (mc + rc + tc) == 1.
Proof. intros. field. lra. Qed.

(** Rounding to two decimals gives less than 0.3 exactly below 0.295. *)
Lemma round_2_below_floor (x : Q) : Py.round x 2 < 0.3 <-> x < 0.295.
Proof.
  split; intros H.
  - apply Qnot_le_lt. intros Hge.
    pose proof (round_mono 0.295 x 2 Hge) as Hm.
    assert (G : Py.round 0.295 2 == 0.3) by reflexivity. lra.
  - pose proof (Qmake_le
      (Py.round_half_even (x * inject_Z (Z.pos (Py.pow10 2)))) 29
      (Py.pow10 2)) as Hz.
    assert (G : (29 # Py.pow10 2) == 0.29) by reflexivity.
    fold (Py.round x 2) in Hz.
    assert (Hr : (Py.round_half_even (x * inject_Z (Z.pos (Py.pow10 2)))
                  <= 29)%Z).
    { pose proof (round_half_even_near
                    (x * inject_Z (Z.pos (Py.pow10 2)))) as [Hn _].
      change (inject_Z (Z.pos (Py.pow10 2))) with 100 in *.
      assert (Hlt : inject_Z (Py.round_half_even (x * 100)) < inject_Z 30).
      { change (inject_Z 30) with 30. lra. }
      rewrite <- Zlt_Qlt in Hlt. lia. }
    specialize (Hz Hr). lra.
Qed.

Lemma texture_signals_ok (ds av va cf conf : Q) :
  0 <= conf -> texture_ok (texture_signals ds av va cf conf).
Proof.
  intros H. unfold texture_ok, texture_signals.
  repeat split; try (eexists; reflexivity). exact H.
Qed.

(** *** One run of the engine

    The inputs of a call that are shared by the statements below: an ML
    estimate, a rule-based estimate, texture signals that are in order, and
    the rest of the arguments. *)

Section Run.

Variables (mlv rp : Q) (td : dict) (bmi : Q) (sex : string) (ms rs : dict)
  (exp : bool).
Hypothesis texture_in_order : texture_ok td.

Lemma texture_estimate_returns :
  exists tp, estimate_bf_from_definition td sex bmi = Ok tp.
Proof.
  destruct texture_in_order as (H1 & H2 & H3 & _).
  destruct (getitem_is_Some _ _ H1) as [a Ha].
  destruct (getitem_is_Some _ _ H2) as [b Hb].
  destruct (getitem_is_Some _ _ H3) as [c Hc].
  unfold estimate_bf_from_definition. rewrite Ha, Hb, Hc.
  eexists. reflexivity.
Qed.

Lemma fused_confidence_bounds :
  0.4 < rules_confidence (fused_confidence td bmi ms rs)
  /\ rules_confidence (fused_confidence td bmi ms rs) <= 1
  /\ 0 <= texture_confidence (fused_confidence td bmi ms rs).
Proof.
  destruct texture_in_order as (_ & _ & _ & H). unfold fused_confidence.
  apply adjust_confidences_bounds; cbn; [reflexivity | exact H].
Qed.

(** What a run of the fusion engine returns on texture signals that are
    in order: the fields of the result in terms of the texture estimate
    [tp] and of the fused confidences. *)
Lemma ensemble_run :
  exists tp r,
    estimate_bf_from_definition td sex bmi = Ok tp
    /\ ensemble_predict_body_fat (Some mlv) rp td bmi sex ms rs exp = Ok r
    /\ let c := fused_confidence td bmi ms rs in
       let total := rules_confidence c + texture_confidence c in
       let safe :=
         rp * (rules_confidence c / total)
         + tp * (texture_confidence c / total) in
       let validated :=
         adjusted_bf (validate_and_adjust_bf safe bmi sex ms rs) in
       let divergence := Py.abs (mlv - rp) in
       let mlc :=
         if Py.gtb divergence 10
         then _calculate_ml_confidence ms rs bmi * 0.3
         else _calculate_ml_confidence ms rs bmi in
       let total_exp := mlc + rules_confidence c + texture_confidence c in
       safe_weights r
       = {| sw_rules := Py.round (rules_confidence c / total) 3;
            sw_texture := Py.round (texture_confidence c / total) 3 |}
       /\ safe_prediction r = Py.round validated 1
       /\ confidence r
          = Py.round (if Py.gtb divergence 15
                      then clamped_confidence rp tp c * 0.85
                      else clamped_confidence rp tp c) 2
       /\ is_overweight (special_cases r) = overweight_of bmi rs
       /\ mode r = (if exp then "EXPERIMENTAL" else "SAFE")
       /\ status (ml_analysis r) = (if exp then "active" else "quarantine")
       /\ if exp then
            final_prediction r
            = Py.round (mlv * (mlc / total_exp)
                        + rp * (rules_confidence c / total_exp)
                        + tp * (texture_confidence c / total_exp)) 1
            /\ experimental_weights r
               = Some {| ew_ml := Py.round (mlc / total_exp) 3;
                         ew_rules :=
                           Py.round (rules_confidence c / total_exp) 3;
                         ew_texture :=
                           Py.round (texture_confidence c / total_exp) 3 |}
            /\ experimental_prediction r
               = (fun v => Py.round v 1)
                   <$> if_truthy
                         (Some (mlv * (mlc / total_exp)
                                + rp * (rules_confidence c / total_exp)
                                + tp * (texture_confidence c / total_exp)))
          else
            final_prediction r = Py.round validated 1
            /\ experimental_weights r = None
            /\ experimental_prediction r = None.
Proof.
  destruct texture_estimate_returns as [tp Htp].
  destruct fused_confidence_bounds as (Hr1 & Hr2 & Ht).
  pose proof (ml_confidence_positive ms rs bmi) as Hml.
  exists tp. unfold ensemble_predict_body_fat. rewrite Htp.
  set (c := fused_confidence td bmi ms rs) in *.
  cbn [mbind Result_bind Py.bind].
  rewrite !div_nonzero by lra. cbn [Py.bind].
  destruct exp.
  - unfold experimental_blend. cbn [mbind Result_bind Py.bind negb].
    set (mlc := if Py.gtb (Py.abs (mlv - rp)) 10
                then _calculate_ml_confidence ms rs bmi * 0.3
                else _calculate_ml_confidence ms rs bmi).
    assert (Hmlc : 0 < mlc) by (subst mlc; destruct (Py.gtb _ 10); lra).
    rewrite !div_nonzero by lra. cbn [Py.bind fmap option_fmap option_map fst snd].
    eexists. split; [reflexivity|]. split; [reflexivity|].
    cbn. repeat split; reflexivity.
  - cbn [mbind Result_bind Py.bind negb fmap option_fmap option_map fst snd].
    eexists. split; [reflexivity|]. split; [reflexivity|].
    cbn. repeat split; reflexivity.
Qed.

(** *** Published confidence *)

(** C10 (amended): the published confidence lies in [0.255, 1]; it is the
    value clamped to [0.3, 1], multiplied by 0.85 when the ML divergence
    exceeds 15 in either mode, and rounded to two decimals.  It is below
    the floor of 0.3 only when the divergence exceeds 15, and then not
    always: exactly when, in addition, 0.85 times the clamped value is
    below 0.295.  It is never below 0.255. *)
Theorem published_confidence_range :
  exists r tp,
    ensemble_predict_body_fat (Some mlv) rp td bmi sex ms rs exp = Ok r
    /\ estimate_bf_from_definition td sex bmi = Ok tp
    /\ 0.255 <= confidence r /\ confidence r <= 1
    /\ confidence r
       = Py.round
           (if Py.gtb (Py.abs (mlv - rp)) 15
            then clamped_confidence rp tp (fused_confidence td bmi ms rs)
                 * 0.85
            else clamped_confidence rp tp (fused_confidence td bmi ms rs)) 2
    /\ (confidence r < 0.3 <->
        15 < Py.abs (mlv - rp)
        /\ clamped_confidence rp tp (fused_confidence td bmi ms rs) * 0.85
           < 0.295)
    /\ (15 < Py.abs (mlv - rp) -> confidence r <= 0.85).
Proof.
  destruct ensemble_run
    as (tp & r & Htp & Hr & _ & _ & Hc & _).
  exists r, tp. split; [exact Hr|]. split; [exact Htp|].
  pose proof (clamped_confidence_bounds rp tp (fused_confidence td bmi ms rs))
    as [Hlo Hhi].
  assert (G1 : Py.round 0.255 2 == 0.26) by reflexivity.
  assert (G2 : Py.round 1 2 == 1) by reflexivity.
  assert (G3 : Py.round 0.3 2 == 0.3) by reflexivity.
  assert (G4 : Py.round 0.85 2 == 0.85) by reflexivity.
  rewrite Hc.
  set (k := clamped_confidence rp tp (fused_confidence td bmi ms rs)) in *.
  destruct (Py.gtb (Py.abs (mlv - rp)) 15) eqn:Hd.
  - apply ltb_true in Hd.
    pose proof (round_mono 0.255 (k * 0.85) 2 ltac:(lra)).
    pose proof (round_mono (k * 0.85) 0.85 2 ltac:(lra)).
    pose proof (round_2_below_floor (k * 0.85)) as Hfloor.
    repeat split; try lra; try reflexivity; tauto.
  - apply ltb_false in Hd.
    pose proof (round_mono 0.3 k 2 Hlo).
    pose proof (round_mono k 1 2 Hhi).
    repeat split; try lra; try reflexivity.
Qed.

(** *** Published estimate *)


(** *** Weights *)

(** C7 (amended): the weights are rounded to three decimals one by one
    when they are returned, so neither the SAFE pair nor the EXPERIMENTAL
    triple is bound to add up to one exactly: each sum as returned is
    within 0.0015 of one.  The triple is present exactly in experimental
    mode. *)
Theorem fusion_weights_sum :
  exists r,
    ensemble_predict_body_fat (Some mlv) rp td bmi sex ms rs exp = Ok r
    /\ 0.9985 <= sw_rules (safe_weights r) + sw_texture (safe_weights r)
    /\ sw_rules (safe_weights r) + sw_texture (safe_weights r) <= 1.0015
    /\ (exp = false -> experimental_weights r = None)
    /\ (exp = true ->
        exists w,
          experimental_weights r = Some w
          /\ 0.9985 <= ew_ml w + ew_rules w + ew_texture w
          /\ ew_ml w + ew_rules w + ew_texture w <= 1.0015).
Proof.
  destruct ensemble_run
    as (tp & r & Htp & Hr & Hw & _ & _ & _ & _ & _ & Hexp).
  destruct fused_confidence_bounds as (Hr1 & Hr2 & Ht).
  pose proof (ml_confidence_positive ms rs bmi) as Hml.
  set (c := fused_confidence td bmi ms rs) in *.
  exists r. split; [exact Hr|].
  assert (Hpair :
    0.9985 <= sw_rules (safe_weights r) + sw_texture (safe_weights r)
    /\ sw_rules (safe_weights r) + sw_texture (safe_weights r) <= 1.0015).
  { rewrite Hw. cbn [sw_rules sw_texture].
    destruct (weight_pair (rules_confidence c) (texture_confidence c)
                ltac:(lra) Ht) as (_ & _ & Hsum).
    set (total := rules_confidence c + texture_confidence c) in *.
    pose proof (round_near_3 (rules_confidence c / total)).
    pose proof (round_near_3 (texture_confidence c / total)).
    lra. }
  split; [apply Hpair|]. split; [apply Hpair|]. split.
  - intros ->. apply Hexp.
  - intros ->. destruct Hexp as (_ & He & _).
    set (mlc := if Py.gtb (Py.abs (mlv - rp)) 10
                then _calculate_ml_confidence ms rs bmi * 0.3
                else _calculate_ml_confidence ms rs bmi) in *.
    assert (Hmlc : 0 < mlc) by (subst mlc; destruct (Py.gtb _ 10); lra).
    pose proof (weight_triple mlc (rules_confidence c) (texture_confidence c)
                  Hmlc ltac:(lra) Ht) as Hsum.
    set (total := mlc + rules_confidence c + texture_confidence c) in *.
    eexists. split; [exact He|].
    cbn [ew_ml ew_rules ew_texture].
    pose proof (round_near_3 (mlc / total)).
    pose proof (round_near_3 (rules_confidence c / total)).
    pose proof (round_near_3 (texture_confidence c / total)).
    lra.
Qed.

End Run.

(** *** Concrete runs *)

Lemma published_confidence_range_witness :
  exists r,
    ensemble_predict_body_fat (Some 40) 19 sharp_texture 28 "male" ∅
      waist_068 false = Ok r
    /\ 0.255 <= confidence r /\ confidence r <= 1.
Proof.
  destruct (published_confidence_range 40 19 sharp_texture 28 "male" ∅
              waist_068 false) as (r & tp & Hr & _ & Hlo & Hhi & _).
  - apply texture_signals_ok. discriminate.
  - exists r. repeat split; assumption.
Defined.

(** C10, as stated, fails: a divergence above 15 does not by itself bring
    the confidence below the floor; an ML estimate 21 points away from the
    rules, with agreeing estimates 19 and 24 and a texture confidence of
    0.9, publishes 0.72. *)
Lemma divergence_above_15_confidence_above_floor :
  exists r,
    ensemble_predict_body_fat (Some 40) 19 sharp_texture 28 "male" ∅
      waist_068 false = Ok r
    /\ 15 < Py.abs (40 - 19)
    /\ confidence r == 0.72
    /\ ~ confidence r < 0.3.
Proof.
  eexists. split; [vm_compute; reflexivity|].
  split; [reflexivity|]. split; [reflexivity | discriminate].
Qed.

(** The floor is really crossed: estimates 5 and 49 that disagree, a
    texture confidence of zero and an ML estimate 40 points away from the
    rules publish a confidence of 0.26. *)
Example published_confidence_below_floor :
  exists r,
    ensemble_predict_body_fat (Some 45) 5 blank_texture 32 "male" ∅ ∅ false
    = Ok r
    /\ confidence r == 0.26 /\ mode r = "SAFE".
Proof.
  eexists. split; [vm_compute; reflexivity|]. split; reflexivity.
Qed.



(** C7, as stated, fails: the three experimental weights are rounded to
    three decimals one by one; confidences 0.5, 0.7 and 0.7 give 0.263,
    0.368 and 0.368, which add up to 0.999. *)
Lemma experimental_weights_sum_below_one :
  exists r w,
    ensemble_predict_body_fat (Some 20) 20 even_texture 24 "male" ∅ ∅ true
    = Ok r
    /\ experimental_weights r = Some w
    /\ ew_ml w + ew_rules w + ew_texture w == 0.999
    /\ ~ ew_ml w + ew_rules w + ew_texture w == 1.
Proof.
  eexists. eexists. split; [vm_compute; reflexivity|].
  split; [reflexivity|]. split; [reflexivity | discriminate].
Qed.

Lemma fusion_weights_sum_witness :
  exists r,
    ensemble_predict_body_fat (Some 20) 20 even_texture 24 "male" ∅ ∅ true
    = Ok r
    /\ 0.9985 <= sw_rules (safe_weights r) + sw_texture (safe_weights r)
    /\ sw_rules (safe_weights r) + sw_texture (safe_weights r) <= 1.0015
    /\ exists w,
         experimental_weights r = Some w
         /\ 0.9985 <= ew_ml w + ew_rules w + ew_texture w
         /\ ew_ml w + ew_rules w + ew_texture w <= 1.0015.
Proof.
  destruct (fusion_weights_sum 20 20 even_texture 24 "male" ∅ ∅ true)
    as (r & Hr & Hlo & Hhi & _ & He).
  - apply texture_signals_ok. discriminate.
  - exists r. split; [exact Hr|]. split; [exact Hlo|]. split; [exact Hhi|].
    destruct (He eq_refl) as (w & Hw & Hwlo & Hwhi).
    exists w. repeat split; assumption.
Defined.

(** *** The scenario at BMI 28 *)

(** C4, as stated, fails: the overweight detector asks for a BMI strictly
    above 28, so at 28 no confidence is changed; with a texture confidence
    of 0.95 the weights are 0.7 / 1.65 and 0.95 / 1.65, and the texture
    weight is the larger one. *)
Lemma boundary_bmi_not_overweight :
  exists r,
    estimate_bf_from_definition keen_texture "male" 28 = Ok 24.0
    /\ ensemble_predict_body_fat (Some 20) 19 keen_texture 28 "male" ∅
         waist_068 false = Ok r
    /\ is_overweight (special_cases r) = false
    /\ sw_rules (safe_weights r) == 0.424
    /\ sw_texture (safe_weights r) == 0.576
    /\ ~ sw_texture (safe_weights r) < sw_rules (safe_weights r).
Proof.
  eexists. split; [reflexivity|]. split; [vm_compute; reflexivity|].
  repeat split; discriminate.
Qed.

Lemma validator_idle_at_28 (bf : Q) (ms rs : dict) :
  Py.get rs "waist_to_shoulder" 0.6 == 0.68 ->
  adjusted_bf (validate_and_adjust_bf bf 28 "male" ms rs)
  = Py.round (clamp_to_sex_bounds "male" bf) 1.
Proof.
  intros Hw. unfold validate_and_adjust_bf, rule_low_bmi, rule_athletic,
    rule_high_bmi, rule_wide_waist, is_athletic.
  set (w := Py.get rs "waist_to_shoulder" 0.6) in *.
  replace (Py.ltb 28 22) with false by reflexivity.
  replace (Py.gtb 28 28) with false by reflexivity.
  replace (Py.ltb w 0.50) with false
    by (symmetry; apply ltb_false; lra).
  replace (Py.gtb w 0.70) with false
    by (symmetry; apply ltb_false; lra).
  reflexivity.
Qed.

Lemma fused_confidence_at_28 (td ms rs : dict) :
  Py.get rs "waist_to_shoulder" 0.6 == 0.68 ->
  suspicious_of ms rs = false ->
  fused_confidence td 28 ms rs
  = low_quality_case {| texture_confidence := Py.get td "confidence" 0.5;
                        rules_confidence := 0.7;
                        notes := [] |}.
Proof.
  intros Hw Hs. unfold fused_confidence. rewrite Hs.
  assert (Ha : athlete_of td 28 = false).
  { unfold athlete_of. replace (Py.leb 28 26) with false by reflexivity.
    now rewrite !andb_false_r. }
  assert (Ho : overweight_of 28 rs = false) by reflexivity.
  rewrite Ha, Ho. reflexivity.
Qed.

(** C4 (amended): at BMI 28 with waist to shoulder 0.68, rules estimate 19
    and texture estimate 24 for a man, [is_overweight] is false (the
    detector asks for a BMI strictly above 28) and the safe estimate lies
    between 19 and 24; the rules weight exceeds the texture weight when the
    measurements are not suspicious and the texture confidence is at most
    0.69. *)
Theorem boundary_bmi_scenario (mlv tp : Q) (td ms rs : dict) (exp : bool) :
  texture_ok td ->
  Py.get rs "waist_to_shoulder" 0.6 == 0.68 ->
  estimate_bf_from_definition td "male" 28 = Ok tp ->
  tp == 24 ->
  exists r,
    ensemble_predict_body_fat (Some mlv) 19 td 28 "male" ms rs exp = Ok r
    /\ is_overweight (special_cases r) = false
    /\ 19 <= safe_prediction r /\ safe_prediction r <= 24
    /\ (suspicious_of ms rs = false ->
        Py.get td "confidence" 0.5 <= 0.69 ->
        sw_texture (safe_weights r) < sw_rules (safe_weights r)).
Proof.
  intros Htd Hw Htp H24.
  destruct (ensemble_run mlv 19 td 28 "male" ms rs exp Htd)
    as (tp' & r & Htp' & Hr & Hsw & Hs & _ & Ho & _).
  assert (tp' = tp) by congruence. subst tp'.
  destruct (fused_confidence_bounds td 28 ms rs Htd) as (Hr1 & Hr2 & Ht).
  exists r. split; [exact Hr|]. split; [rewrite Ho; reflexivity|].
  set (c := fused_confidence td 28 ms rs) in *.
  destruct (weight_pair (rules_confidence c) (texture_confidence c)
              ltac:(lra) Ht) as (W1 & W2 & W3).
  set (wr := rules_confidence c / (rules_confidence c + texture_confidence c))
    in *.
  set (wt := texture_confidence c
             / (rules_confidence c + texture_confidence c)) in *.
  assert (Hsafe : 19 <= 19 * wr + tp * wt /\ 19 * wr + tp * wt <= 24).
  { rewrite H24. lra. }
  assert (Hb : 19 <= safe_prediction r /\ safe_prediction r <= 24).
  { rewrite Hs, (validator_idle_at_28 _ ms rs Hw).
    assert (Hin : 19 <= Py.round (clamp_to_sex_bounds "male"
                                    (19 * wr + tp * wt)) 1
                  /\ Py.round (clamp_to_sex_bounds "male"
                                 (19 * wr + tp * wt)) 1 <= 24).
    { apply round_between; try reflexivity;
        unfold clamp_to_sex_bounds; cbn [is_male String.eqb Ascii.eqb
          Bool.eqb]; compare_cases. }
    apply round_between; try reflexivity; apply Hin. }
  split; [apply Hb|]. split; [apply Hb|].
  intros Hsus Hconf.
  pose proof (round_complement wr wt W3) as Hsum.
  rewrite Hsw. cbn [sw_rules sw_texture].
  assert (Hwr : 0.501 <= wr).
  { subst wr. apply Qle_shift_div_l; [lra|].
    destruct Htd as (_ & _ & _ & Hc0). subst c.
    rewrite (fused_confidence_at_28 td ms rs Hw Hsus).
    unfold low_quality_case. 
    set (t0 := Py.get td "confidence" 0.5) in *.
    cbn [texture_confidence rules_confidence].
    compare_cases. }
  pose proof (round_mono 0.501 wr 3 Hwr) as Hm.
  assert (G : Py.round 0.501 3 == 0.501) by reflexivity.
  lra.
Qed.

Lemma boundary_bmi_scenario_witness :
  exists r,
    ensemble_predict_body_fat (Some 20) 19 calm_texture 28 "male" ∅
      waist_068 false = Ok r
    /\ is_overweight (special_cases r) = false
    /\ 19 <= safe_prediction r /\ safe_prediction r <= 24
    /\ sw_texture (safe_weights r) < sw_rules (safe_weights r).
Proof.
  destruct (boundary_bmi_scenario 20 24.0 calm_texture ∅ waist_068 false)
    as (r & Hr & Ho & Hlo & Hhi & Hw).
  - apply texture_signals_ok. discriminate.
  - reflexivity.
  - reflexivity.
  - reflexivity.
  - exists r. repeat split; try assumption.
    apply Hw; [reflexivity | discriminate].
Defined.

End FusionEngine.

(** ** The estimate operation when the regression model is unavailable *)

Section Estimator.

(** The fusion engine itself cannot run without an ML estimate: the
    divergence [abs(ml_prediction - rules_prediction)] raises. *)
Lemma ensemble_without_ml_raises (rp : Q) (td : dict) (bmi : Q)
    (sex : string) (ms rs : dict) (exp : bool) :
  texture_ok td ->
  ensemble_predict_body_fat None rp td bmi sex ms rs exp = Raise TypeError.
Proof.
  intros Htd.
  destruct (texture_estimate_returns td bmi sex Htd) as [tp Htp].
  destruct (fused_confidence_bounds td bmi ms rs Htd) as (Hr1 & Hr2 & Ht).
  unfold ensemble_predict_body_fat. rewrite Htp.
  cbn [mbind Result_bind Py.bind].
  rewrite !div_nonzero by lra. reflexivity.
Qed.

Lemma ml_step_unavailable (use_ml : bool) (regressor : Result Q)
    (alerts : list Note) :
  ml_unavailable use_ml regressor ->
  (ml_step use_ml regressor alerts).1 = None.
Proof.
  intros [-> | [e ->]]; [reflexivity|]. unfold ml_step.
  destruct use_ml; reflexivity.
Qed.

(** C2, as stated, fails: with the model missing the estimate operation
    does not call the fusion engine; the result has no ensemble
    information, hence no mode, and the estimate is the rule-based one. *)
Lemma ml_unavailable_skips_fusion :
  exists result g',
    estimate_body_composition measurements_complete even_texture 80 175
      "male" true true model_not_found [] false uneven_generator
    = (Estimated result, g')
    /\ ensemble_info result = None
    /\ estimation_method result = "Rule-based"
    /\ ~ exists info,
          ensemble_info result = Some info /\ ei_mode info = "SAFE".
Proof.
  eexists. eexists. split; [vm_compute; reflexivity|].
  split; [reflexivity|]. split; [reflexivity|].
  intros (info & H & _). discriminate.
Qed.

(** C2 (amended): when the ML estimate is unavailable the estimate
    operation still returns a result, but without running the fusion
    engine: the result has no ensemble information, the method is
    "Rule-based", the published value is the rule-based estimate, and an
    alert is recorded when the model raised. *)
Theorem ml_unavailable_falls_back_to_rules (ms td : dict)
    (weight_kg height_cm : Q) (sex : string) (use_ml use_ensemble : bool)
    (regressor : Result Q) (alerts0 : list Note) (experimental : bool)
    (g : RandomState) (w s h t : Q) :
  ms !! "waist_width" = Some w -> ms !! "shoulder_width" = Some s ->
  ~ s == 0 ->
  ms !! "hip_width" = Some h -> ms !! "torso_height" = Some t ->
  ~ height_cm == 0 ->
  ml_unavailable use_ml regressor ->
  exists result g',
    estimate_body_composition ms td weight_kg height_cm sex use_ml
      use_ensemble regressor alerts0 experimental g = (Estimated result, g')
    /\ ensemble_info result = None
    /\ estimation_method result = "Rule-based"
    /\ body_fat_percentage result
       = (estimate_body_fat (body_type result)
            (weight_kg / (height_cm / 100 * (height_cm / 100))) sex
            (Some (ratios_dict (ratios_out result))) (Some ms) g).1
    /\ alerts result = (ml_step use_ml regressor alerts0).2
    /\ (use_ml = true -> forall e, regressor = Raise e ->
        alerts result = alerts0 ++ [MlModelUnavailable e]).
Proof.
  intros Hw Hs Hne Hh Ht Hheight Hml.
  unfold estimate_body_composition, estimate_steps.
  rewrite (ratios_returned ms w s h t Hw Hs Hne Hh Ht).
  cbn [mbind Result_bind Py.bind].
  assert (Hden : ~ height_cm / 100 * (height_cm / 100) == 0).
  { assert (Hq : ~ height_cm / 100 == 0).
    { intros H0. unfold Qdiv in H0. apply Qmult_integral in H0.
      destruct H0 as [H0|H0]; [exact (Hheight H0) | discriminate]. }
    intros H0. apply Qmult_integral in H0. tauto. }
  rewrite (div_nonzero _ _ Hden). cbn [mbind Result_bind Py.bind].
  pose proof (ml_step_unavailable use_ml regressor alerts0 Hml) as Hstep.
  destruct (ml_step use_ml regressor alerts0) as [mlp alerts1] eqn:Estep.
  cbn [fst] in Hstep. subst mlp.
  set (ratios := {| r_waist_to_shoulder := w / s;
                    r_hip_to_shoulder := h / s;
                    r_torso_to_shoulder := t / s |}).
  set (bmi := weight_kg / (height_cm / 100 * (height_cm / 100))).
  destruct (estimate_body_fat
              (classify_body_type (ratios_dict ratios) sex (Some bmi)) bmi
              sex (Some (ratios_dict ratios)) (Some ms) g)
    as [rules g'] eqn:Erules.
  exists {| body_type :=
              classify_body_type (ratios_dict ratios) sex (Some bmi);
            body_fat_percentage := rules;
            bmi_out := Py.round bmi 1;
            estimation_method := "Rule-based";
            ratios_out := ratios;
            alerts := alerts1;
            ensemble_info := None |}, g'.
  split; [destruct use_ensemble; reflexivity|].
  cbn [ensemble_info estimation_method body_fat_percentage body_type
       ratios_out alerts snd].
  rewrite Erules.
  repeat split.
  intros -> e ->. cbn in Estep. congruence.
Qed.

Lemma ml_unavailable_falls_back_to_rules_witness :
  exists result g',
    estimate_body_composition measurements_complete even_texture 80 175
      "male" true true model_not_found [] false uneven_generator
    = (Estimated result, g')
    /\ ensemble_info result = None
    /\ estimation_method result = "Rule-based"
    /\ alerts result
       = [MlModelUnavailable (OtherError "model file not found")].
Proof.
  destruct (ml_unavailable_falls_back_to_rules measurements_complete
              even_texture 80 175 "male" true true model_not_found []
              false uneven_generator 0.3 0.5 0.3 0.5)
    as (result & g' & Hrun & Hinfo & Hmethod & _ & _ & Halerts);
    try reflexivity; try discriminate.
  - right. eexists. reflexivity.
  - exists result, g'. repeat split; try assumption.
    apply (Halerts eq_refl _ eq_refl).
Defined.

End Estimator.

(** * Further properties *)

(** ** Rule-based estimator *)

Section RuleBasedEstimatorMore.

Lemma body_fat_with_noise_within_bounds (bt : string) (bmi : Q)
    (sex : string) (rs ms : option dict) (noise : Q) :
  within_sex_bounds sex (body_fat_with_noise bt bmi sex rs ms noise).
Proof.
  unfold body_fat_with_noise.
  apply round_within_bounds, clamp_within_bounds.
Qed.

(** X1: whatever the inputs and the noise drawn, the rule-based estimate
    lies within the bounds of the sex, 5 to 45 for men and 12 to 50
    otherwise. *)
Theorem estimate_body_fat_within_bounds (bt : string) (bmi : Q)
    (sex : string) (rs ms : option dict) (g : RandomState) :
  within_sex_bounds sex (estimate_body_fat bt bmi sex rs ms g).1.
Proof.
  unfold estimate_body_fat, random_uniform, random_random. cbn [fst].
  apply body_fat_with_noise_within_bounds.
Qed.

Lemma base_body_fat_sexes (bt s1 s2 : string) :
  is_male s1 = true -> is_male s2 = false ->
  base_body_fat bt s1 + 7 <= base_body_fat bt s2.
Proof.
  intros H1 H2. unfold base_body_fat. rewrite H1, H2.
  repeat (destruct (String.eqb bt _); [lra|]). lra.
Qed.

Lemma waist_adjustment_sexes (s1 s2 : string) (rs : option dict) :
  is_male s1 = true -> is_male s2 = false ->
  waist_adjustment s1 rs <= waist_adjustment s2 rs + 3.
Proof.
  intros H1 H2. unfold waist_adjustment. rewrite H1, H2.
  destruct (truthy rs); [|lra].
  set (w := Py.get (default ∅ rs) "waist_to_shoulder" 0).
  compare_cases.
Qed.

Lemma clamp_sexes (s1 s2 : string) (x y : Q) :
  is_male s1 = true -> is_male s2 = false -> x <= y ->
  clamp_to_sex_bounds s1 x <= clamp_to_sex_bounds s2 y.
Proof.
  intros H1 H2 H. unfold clamp_to_sex_bounds. rewrite H1, H2.
  compare_cases.
Qed.

(** X2: with everything else equal, the noise included, the estimate for a
    woman is never below the estimate for a man. *)
Theorem estimate_body_fat_female_not_below_male (bt : string) (bmi : Q)
    (s1 s2 : string) (rs ms : option dict) (g : RandomState) :
  s1 = "male"%string -> s2 <> "male"%string ->
  (estimate_body_fat bt bmi s1 rs ms g).1
  <= (estimate_body_fat bt bmi s2 rs ms g).1.
Proof.
  intros -> Hs2.
  assert (H1 : is_male "male" = true) by reflexivity.
  assert (H2 : is_male s2 = false).
  { unfold is_male. apply String.eqb_neq. exact Hs2. }
  unfold estimate_body_fat, random_uniform, random_random. cbn [fst].
  unfold body_fat_with_noise.
  apply round_mono, clamp_sexes; try assumption.
  pose proof (base_body_fat_sexes bt "male" s2 H1 H2).
  pose proof (waist_adjustment_sexes "male" s2 rs H1 H2).
  lra.
Qed.

Lemma estimate_body_fat_female_not_below_male_witness :
  (estimate_body_fat "lean" 23 "male" (Some waist_072) None
     uneven_generator).1
  <= (estimate_body_fat "lean" 23 "female" (Some waist_072) None
        uneven_generator).1.
Proof.
  apply (estimate_body_fat_female_not_below_male "lean" 23 "male" "female"
           (Some waist_072) None uneven_generator).
  - reflexivity.
  - discriminate.
Defined.

End RuleBasedEstimatorMore.

(** ** Physiological validator *)

Section ValidatorMore.

Variables (bf bmi : Q) (sex : string) (ms rs : dict).

Let w := Py.get rs "waist_to_shoulder" 0.6.
Let vol := Py.get ms "volume_indicator" 0.15.

Lemma is_athletic_true (a b c : Q) :
  is_athletic a b c = true <-> a < 0.50 /\ 0.20 < b /\ 20 <= c /\ c <= 26.
Proof.
  unfold is_athletic. rewrite !andb_true_iff.
  unfold Py.gtb. rewrite !ltb_true, !leb_true. tauto.
Qed.

(** X3: [was_adjusted] is true exactly when one of the four rules applies,
    and the reason is empty exactly otherwise.  When none applies the
    candidate is still clamped to the bounds of the sex and rounded, so the
    value can change while [was_adjusted] is false. *)
Theorem was_adjusted_iff_triggered :
  let v := validate_and_adjust_bf bf bmi sex ms rs in
  (was_adjusted v = true <-> validator_triggered bf bmi ms rs)
  /\ (reason v = NoReason <-> was_adjusted v = false)
  /\ (was_adjusted v = false ->
      adjusted_bf v = Py.round (clamp_to_sex_bounds sex bf) 1
      /\ validation_confidence v = "high"%string).
Proof.
  unfold validate_and_adjust_bf, validator_triggered.
  fold w vol.
  unfold rule_low_bmi, rule_athletic, rule_high_bmi, rule_wide_waist.
  cbn [adjusted_bf was_adjusted reason validation_confidence].
  destruct (Py.gtb w 0.70 && Py.ltb bf 22) eqn:E4;
  destruct (Py.gtb bmi 28 && Py.ltb bf 20) eqn:E3;
  destruct (is_athletic w vol bmi && Py.gtb bf 18) eqn:E2;
  destruct (Py.ltb bmi 22 && Py.gtb bf 20) eqn:E1;
  cbn [vs_adjusted_bf vs_was_adjusted vs_reason negb];
  rewrite ?andb_true_iff, ?andb_false_iff in *;
  unfold Py.gtb in *;
  rewrite ?is_athletic_true, ?ltb_true, ?ltb_false in *;
  (split; [|split]);
  try (split; intros; try discriminate; try reflexivity; try tauto);
  try (intros; discriminate);
  try (intros; split; reflexivity).
  all: try (exfalso;
            match goal with
            | H : is_athletic _ _ _ = false \/ _ |- _ =>
                rewrite <- not_true_iff_false, is_athletic_true in H
            end; lra).
  all: try lra.
Qed.

(** X4: the wide-waist rule is the last one and overrides the others: with
    waist to shoulder above 0.70 and a candidate below 22 the reason is the
    wide waist whatever the BMI rules decided, and the adjusted value is at
    least 22 for a man and at least 30 otherwise. *)
Theorem wide_waist_rule_wins :
  0.70 < w -> bf < 22 ->
  let v := validate_and_adjust_bf bf bmi sex ms rs in
  was_adjusted v = true
  /\ reason v = WideWaist
  /\ adjusted_bf v
     = Py.round (clamp_to_sex_bounds sex
                   (if is_male sex then 22 + (w - 0.70) * 40
                    else 30 + (w - 0.70) * 40)) 1
  /\ (if is_male sex then 22 else 30) <= adjusted_bf v.
Proof.
  intros Hw Hbf. unfold validate_and_adjust_bf. fold w vol.
  assert (E : Py.gtb w 0.70 && Py.ltb bf 22 = true).
  { apply andb_true_iff. split; apply ltb_true; assumption. }
  unfold rule_wide_waist. rewrite E.
  cbn [adjusted_bf was_adjusted reason vs_adjusted_bf vs_was_adjusted
       vs_reason].
  split; [reflexivity|]. split; [reflexivity|]. split; [reflexivity|].
  unfold clamp_to_sex_bounds.
  destruct (is_male sex).
  - assert (G : Py.round 22 1 == 22) by reflexivity.
    rewrite <- G at 1. apply round_mono. compare_cases.
  - assert (G : Py.round 30 1 == 30) by reflexivity.
    rewrite <- G at 1. apply round_mono. compare_cases.
Qed.

End ValidatorMore.

Lemma wide_waist_rule_wins_witness :
  reason (validate_and_adjust_bf 15 31 "male" ∅ waist_072) = WideWaist
  /\ 22 <= adjusted_bf (validate_and_adjust_bf 15 31 "male" ∅ waist_072).
Proof.
  destruct (wide_waist_rule_wins 15 31 "male" ∅ waist_072)
    as (_ & Hr & _ & Hb).
  - reflexivity.
  - reflexivity.
  - split; [exact Hr | exact Hb].
Defined.

(** ** Texture estimator *)

Section TextureEstimatorMore.

Lemma penalized_visual_score_range (ds av va cf : Q) :
  0 <= ds -> ds <= 1 -> 0 <= av -> av <= 1 -> 0 <= va -> va <= 1 ->
  0 <= penalized_visual_score ds av va cf
  /\ penalized_visual_score ds av va cf <= 1.
Proof. intros. unfold penalized_visual_score. compare_cases. Qed.

Lemma bf_from_visual_score_range (sex : string) (v : Q) :
  0 <= v -> v <= 1 ->
  (if is_male sex then 7 else 14) <= bf_from_visual_score sex v
  /\ bf_from_visual_score sex v <= (if is_male sex then 49 else 54).
Proof.
  intros. unfold bf_from_visual_score. destruct (is_male sex); compare_cases.
Qed.

Lemma bmi_sanity_override_idle (bmi bf : Q) :
  20 <= bmi -> bmi <= 30 -> bmi_sanity_override bmi bf = bf.
Proof.
  intros H1 H2. unfold bmi_sanity_override.
  replace (Py.ltb bmi 20) with false by (symmetry; now apply ltb_false).
  replace (Py.gtb bmi 30) with false by (symmetry; now apply ltb_false).
  reflexivity.
Qed.

Lemma central_fat_correction_range (sex : string) (cf bf : Q) :
  (if is_male sex then 7 else 14) <= bf ->
  bf <= (if is_male sex then 49 else 54) ->
  (if is_male sex then 7 else 14) <= central_fat_correction sex cf bf
  /\ central_fat_correction sex cf bf <= (if is_male sex then 49 else 54).
Proof.
  intros. unfold central_fat_correction. destruct (is_male sex); compare_cases.
Qed.

(** X5: with the three scores in [0, 1] and a BMI between 20 and 30 the
    texture estimate lies between 7 and 49 for a man and between 14 and 54
    otherwise: the estimator does not clamp to the physiological bounds,
    so its upper end is above them. *)
Theorem texture_estimate_range (td : dict) (sex : string) (bmi ds av va : Q) :
  td !! "definition_score" = Some ds ->
  td !! "abs_visibility" = Some av ->
  td !! "vascularity" = Some va ->
  0 <= ds /\ ds <= 1 -> 0 <= av /\ av <= 1 -> 0 <= va /\ va <= 1 ->
  20 <= bmi /\ bmi <= 30 ->
  exists tp,
    estimate_bf_from_definition td sex bmi = Ok tp
    /\ (if is_male sex then 7 else 14) <= tp
    /\ tp <= (if is_male sex then 49 else 54).
Proof.
  intros Hds Hav Hva [D0 D1] [A0 A1] [V0 V1] [B0 B1].
  unfold estimate_bf_from_definition, Py.getitem. rewrite Hds, Hav, Hva.
  cbn [mbind Result_bind Py.bind].
  eexists. split; [reflexivity|].
  set (cf := Py.get td "central_fat" 0.5).
  rewrite (bmi_sanity_override_idle bmi _ B0 B1).
  destruct (penalized_visual_score_range ds av va cf D0 D1 A0 A1 V0 V1)
    as [P0 P1].
  destruct (bf_from_visual_score_range sex _ P0 P1) as [F0 F1].
  destruct (central_fat_correction_range sex cf _ F0 F1) as [C0 C1].
  destruct (is_male sex); apply round_between; try reflexivity; assumption.
Qed.

Lemma texture_estimate_range_witness :
  exists tp,
    estimate_bf_from_definition flat_texture "male" 28 = Ok tp
    /\ 7 <= tp /\ tp <= 49.
Proof.
  apply (texture_estimate_range flat_texture "male" 28 0 0 0);
    try reflexivity; split; discriminate.
Defined.

Lemma missing_score_key_error (td : dict) (sex : string) (bmi : Q)
    (k : string) :
  first_missing_score td = Some k ->
  estimate_bf_from_definition td sex bmi = Raise (KeyError k).
Proof.
  unfold first_missing_score, estimate_bf_from_definition, Py.getitem.
  destruct (td !! "definition_score");
    [destruct (td !! "abs_visibility");
      [destruct (td !! "vascularity"); [discriminate|]|]|];
    intros [= <-]; reflexivity.
Qed.

(** X6: the texture estimator, and with it the fusion engine, needs the
    three scores: the first one missing, in the order definition_score,
    abs_visibility, vascularity, is reported as [KeyError], although the
    fusion engine reads the same scores with defaults for its own tests.
    [central_fat] and [confidence] may be missing. *)
Theorem missing_texture_score_raises (ml : option Q) (rp : Q) (td : dict)
    (bmi : Q) (sex : string) (ms rs : dict) (exp : bool) (k : string) :
  first_missing_score td = Some k ->
  estimate_bf_from_definition td sex bmi = Raise (KeyError k)
  /\ ensemble_predict_body_fat ml rp td bmi sex ms rs exp
     = Raise (KeyError k).
Proof.
  intros H. pose proof (missing_score_key_error td sex bmi k H) as E.
  split; [exact E|]. unfold ensemble_predict_body_fat. rewrite E.
  reflexivity.
Qed.

Lemma missing_texture_score_raises_witness :
  ensemble_predict_body_fat (Some 20) 19 texture_without_vascularity 24
    "male" ∅ ∅ false
  = Raise (KeyError "vascularity").
Proof.
  apply (missing_texture_score_raises (Some 20) 19
           texture_without_vascularity 24 "male" ∅ ∅ false "vascularity").
  reflexivity.
Defined.

End TextureEstimatorMore.

(** ** Fusion engine *)

Section FusionEngineMore.

(** X7: the ML confidence starts at 0.5 and is only ever discounted, by
    0.8, 0.85 and 0.9; it lies between 0.306 and 0.5, and it is 0.5 exactly
    when BMI, waist ratio and volume indicator are all in their typical
    ranges. *)
Theorem ml_confidence_range (ms rs : dict) (bmi : Q) :
  0.306 <= _calculate_ml_confidence ms rs bmi
  /\ _calculate_ml_confidence ms rs bmi <= 0.5
  /\ (_calculate_ml_confidence ms rs bmi == 0.5 <->
      (18 <= bmi /\ bmi <= 35)
      /\ (0.35 <= Py.get rs "waist_to_shoulder" 0.6
          /\ Py.get rs "waist_to_shoulder" 0.6 <= 0.80)
      /\ (0.10 <= Py.get ms "volume_indicator" 0.15
          /\ Py.get ms "volume_indicator" 0.15 <= 0.35)).
Proof.
  unfold _calculate_ml_confidence.
  set (w := Py.get rs "waist_to_shoulder" 0.6).
  set (vol := Py.get ms "volume_indicator" 0.15).
  unfold Py.gtb.
  destruct (ltb_spec bmi 18), (ltb_spec 35 bmi), (ltb_spec w 0.35),
    (ltb_spec 0.80 w), (ltb_spec vol 0.10), (ltb_spec 0.35 vol);
    cbn [orb]; repeat split; try lra; intros; try lra;
    try (exfalso; match goal with H : _ == 0.5 |- _ =>
                    vm_compute in H; discriminate end).
Qed.

Lemma adjust_confidences_tight (a o s : bool) (c : Confidence) :
  rules_confidence c == 0.7 -> 0 <= texture_confidence c ->
  texture_confidence c <= 1 ->
  0.441 <= rules_confidence (adjust_confidences a o s c)
  /\ texture_confidence (adjust_confidences a o s c) <= 1.
Proof.
  intros Hr Ht Ht1.
  unfold adjust_confidences, low_quality_case, suspicious_case,
    overweight_case, athlete_case.
  destruct a, o, s; cbn [rules_confidence texture_confidence];
    compare_cases.
Qed.

Lemma adjust_confidences_notes (a o s : bool) (c : Confidence) :
  notes (adjust_confidences a o s c)
  = notes c
    ++ (if a then [AthletePrioritiseTexture] else [])
    ++ (if o then [OverweightPrioritiseRules] else [])
    ++ (if s then [PartialDetectionPrioritiseTexture] else [])
    ++ (if Py.ltb (texture_confidence (adjust_confidences a o s c)) 0.4
        then [LowImageQualityPrioritiseRules] else []).
Proof.
  unfold adjust_confidences.
  set (c3 := suspicious_case s (overweight_case o (athlete_case a c))).
  assert (H3 : notes c3
               = notes c
                 ++ (if a then [AthletePrioritiseTexture] else [])
                 ++ (if o then [OverweightPrioritiseRules] else [])
                 ++ (if s then [PartialDetectionPrioritiseTexture] else [])).
  { subst c3. destruct a, o, s; cbn; rewrite <- ?app_assoc, ?app_nil_r;
      reflexivity. }
  unfold low_quality_case.
  destruct (Py.ltb (texture_confidence c3) 0.4) eqn:E.
  - cbn [notes texture_confidence]. apply ltb_true in E.
    replace (Py.ltb (texture_confidence c3 * 0.8) 0.4) with true
      by (symmetry; apply ltb_true; lra).
    rewrite H3, <- !app_assoc. reflexivity.
  - rewrite E, H3, app_nil_r. reflexivity.
Qed.

Section RunMore.

Variables (mlv rp : Q) (td : dict) (bmi : Q) (sex : string) (ms rs : dict)
  (exp : bool).
Hypothesis texture_in_order : texture_ok td.

(** The fields of the result that describe the run: flags, notes and the
    ML analysis. *)
Lemma ensemble_run_trail :
  exists tp r,
    estimate_bf_from_definition td sex bmi = Ok tp
    /\ ensemble_predict_body_fat (Some mlv) rp td bmi sex ms rs exp = Ok r
    /\ let c := fused_confidence td bmi ms rs in
       let total := rules_confidence c + texture_confidence c in
       let safe :=
         rp * (rules_confidence c / total)
         + tp * (texture_confidence c / total) in
       let validation := validate_and_adjust_bf safe bmi sex ms rs in
       let divergence := Py.abs (mlv - rp) in
       special_cases r
       = {| is_athlete := athlete_of td bmi;
            is_overweight := overweight_of bmi rs;
            measurements_suspicious := suspicious_of ms rs;
            low_image_quality := Py.ltb (texture_confidence c) 0.4 |}
       /\ adjustments r
          = ((notes c
              ++ (if exp && Py.gtb divergence 10
                  then [MlDiverges divergence] else []))
             ++ (if was_adjusted validation
                 then [ValidationApplied safe (adjusted_bf validation)
                         (reason validation)]
                 else []))
            ++ (if Py.gtb divergence 15
                then [ConfidenceReducedByMl divergence] else [])
       /\ ml_analysis r
          = {| ma_prediction := Py.round mlv 1;
               divergence_from_rules := Py.round divergence 1;
               confidence_impact :=
                 if Py.gtb divergence 15 then "reduced" else "neutral";
               status := if negb exp then "quarantine" else "active" |}
       /\ rules_prediction_out r = Py.round rp 1
       /\ texture_prediction_out r = Py.round tp 1
       /\ ml_prediction_out r = Py.round mlv 1.
Proof.
  destruct (texture_estimate_returns td bmi sex texture_in_order)
    as [tp Htp].
  destruct (fused_confidence_bounds td bmi ms rs texture_in_order)
    as (Hr1 & Hr2 & Ht).
  pose proof (ml_confidence_positive ms rs bmi) as Hml.
  exists tp. unfold ensemble_predict_body_fat. rewrite Htp.
  set (c := fused_confidence td bmi ms rs) in *.
  cbn [mbind Result_bind Py.bind].
  rewrite !div_nonzero by lra. cbn [Py.bind].
  destruct exp.
  - unfold experimental_blend. cbn [mbind Result_bind Py.bind negb].
    set (mlc := if Py.gtb (Py.abs (mlv - rp)) 10
                then _calculate_ml_confidence ms rs bmi * 0.3
                else _calculate_ml_confidence ms rs bmi).
    assert (Hmlc : 0 < mlc) by (subst mlc; destruct (Py.gtb _ 10); lra).
    rewrite !div_nonzero by lra.
    cbn [Py.bind fmap option_fmap option_map fst snd andb].
    eexists. split; [reflexivity|]. split; [reflexivity|].
    cbn [special_cases adjustments ml_analysis rules_prediction_out
         texture_prediction_out ml_prediction_out].
    split; [reflexivity|]. split; [|repeat split; reflexivity].
    cbn [fst snd].
    destruct (was_adjusted (validate_and_adjust_bf _ bmi sex ms rs)),
      (Py.gtb (Py.abs (mlv - rp)) 15), (Py.gtb (Py.abs (mlv - rp)) 10);
      rewrite ?app_nil_r; reflexivity.
  - cbn [mbind Result_bind Py.bind negb fmap option_fmap option_map fst snd
         andb].
    eexists. split; [reflexivity|]. split; [reflexivity|].
    cbn [special_cases adjustments ml_analysis rules_prediction_out
         texture_prediction_out ml_prediction_out].
    split; [reflexivity|]. split; [|repeat split; reflexivity].
    cbn [fst snd].
    destruct (was_adjusted (validate_and_adjust_bf _ bmi sex ms rs)),
      (Py.gtb (Py.abs (mlv - rp)) 15), (Py.gtb (Py.abs (mlv - rp)) 10);
      rewrite ?app_nil_r; reflexivity.
Qed.

Lemma trail_membership (n : Note) (c : list Note) (e v d : list Note) :
  (forall x, In x e -> x <> n) -> (forall x, In x v -> x <> n) ->
  (forall x, In x d -> x <> n) ->
  In n (((c ++ e) ++ v) ++ d) <-> In n c.
Proof.
  intros He Hv Hd. rewrite !in_app_iff. split; [|tauto].
  intros [[[H|H]|H]|H]; [exact H | | |]; exfalso.
  - now apply (He n H).
  - now apply (Hv n H).
  - now apply (Hd n H).
Qed.

(** X8: the four special-case flags of the result agree with the audit
    trail: a flag is set exactly when the note of its case is among the
    adjustments.  For low image quality this holds although the flag is
    computed from the confidence after the case has already lowered it. *)
Theorem flags_agree_with_adjustments :
  exists r,
    ensemble_predict_body_fat (Some mlv) rp td bmi sex ms rs exp = Ok r
    /\ (is_athlete (special_cases r) = true
        <-> In AthletePrioritiseTexture (adjustments r))
    /\ (is_overweight (special_cases r) = true
        <-> In OverweightPrioritiseRules (adjustments r))
    /\ (measurements_suspicious (special_cases r) = true
        <-> In PartialDetectionPrioritiseTexture (adjustments r))
    /\ (low_image_quality (special_cases r) = true
        <-> In LowImageQualityPrioritiseRules (adjustments r)).
Proof.
  destruct ensemble_run_trail as (tp & r & _ & Hr & Hsc & Hadj & _).
  exists r. split; [exact Hr|].
  rewrite Hsc, Hadj.
  cbn [is_athlete is_overweight measurements_suspicious low_image_quality].
  assert (Hrest : forall n : Note,
            match n with
            | MlDiverges _ | ValidationApplied _ _ _
            | ConfidenceReducedByMl _ => False
            | _ => True
            end ->
            forall (b1 b2 b3 : bool) (n1 n2 n3 : Note) (c : list Note),
              match n1 with MlDiverges _ => True | _ => False end ->
              match n2 with ValidationApplied _ _ _ => True | _ => False end ->
              match n3 with ConfidenceReducedByMl _ => True | _ => False end ->
              In n (((c ++ (if b1 then [n1] else []))
                     ++ (if b2 then [n2] else []))
                    ++ (if b3 then [n3] else []))
              <-> In n c).
  { intros n Hn b1 b2 b3 n1 n2 n3 c H1 H2 H3.
    apply trail_membership; intros x Hx ->.
    - destruct b1; [|contradiction]. destruct Hx as [<-|[]].
      destruct n1; contradiction.
    - destruct b2; [|contradiction]. destruct Hx as [<-|[]].
      destruct n2; contradiction.
    - destruct b3; [|contradiction]. destruct Hx as [<-|[]].
      destruct n3; contradiction. }
  rewrite !Hrest by exact I.
  unfold fused_confidence. rewrite adjust_confidences_notes.
  cbn [notes]. rewrite !in_app_iff.
  set (lq := Py.ltb (texture_confidence (adjust_confidences _ _ _ _)) 0.4).
  destruct (athlete_of td bmi), (overweight_of bmi rs),
    (suspicious_of ms rs), lq;
    cbn [In]; repeat split; intros;
    try reflexivity; try tauto;
    repeat match goal with
           | H : _ \/ _ |- _ => destruct H
           | H : False |- _ => destruct H
           end;
    try discriminate.
Qed.

(** X9: the ML divergence only acts as a confidence signal: the impact is
    "reduced", and the note on the reduced confidence is recorded, exactly
    when the divergence from the rules exceeds 15, in either mode; the note
    on the diverging ML estimate is recorded exactly in experimental mode
    with a divergence above 10. *)
Theorem divergence_is_reported :
  exists r,
    ensemble_predict_body_fat (Some mlv) rp td bmi sex ms rs exp = Ok r
    /\ divergence_from_rules (ml_analysis r)
       = Py.round (Py.abs (mlv - rp)) 1
    /\ (confidence_impact (ml_analysis r) = "reduced"%string
        <-> 15 < Py.abs (mlv - rp))
    /\ (In (ConfidenceReducedByMl (Py.abs (mlv - rp))) (adjustments r)
        <-> 15 < Py.abs (mlv - rp))
    /\ (In (MlDiverges (Py.abs (mlv - rp))) (adjustments r)
        <-> exp = true /\ 10 < Py.abs (mlv - rp)).
Proof.
  destruct ensemble_run_trail as (tp & r & _ & Hr & _ & Hadj & Hml & _).
  exists r. split; [exact Hr|].
  rewrite Hadj, Hml. cbn [divergence_from_rules confidence_impact].
  split; [reflexivity|].
  set (d := Py.abs (mlv - rp)).
  assert (Hnotes : forall n, In n (notes (fused_confidence td bmi ms rs)) ->
            (forall a, n <> MlDiverges a)
            /\ (forall a, n <> ConfidenceReducedByMl a)).
  { intros n. unfold fused_confidence. rewrite adjust_confidences_notes.
    cbn [notes]. rewrite !in_app_iff.
    set (lq := Py.ltb (texture_confidence (adjust_confidences _ _ _ _)) 0.4).
    destruct (athlete_of td bmi), (overweight_of bmi rs),
      (suspicious_of ms rs), lq; cbn [In];
      intros H;
      repeat match goal with
             | H : _ \/ _ |- _ => destruct H
             | H : False |- _ => destruct H
             end;
      subst n; split; intros; discriminate. }
  assert (N1 : ~ In (MlDiverges d) (notes (fused_confidence td bmi ms rs))).
  { intros H. apply Hnotes in H. destruct H as [H _]. now apply (H d). }
  assert (N2 : ~ In (ConfidenceReducedByMl d)
                 (notes (fused_confidence td bmi ms rs))).
  { intros H. apply Hnotes in H. destruct H as [_ H]. now apply (H d). }
  rewrite !in_app_iff.
  unfold Py.gtb.
  destruct (ltb_spec 15 d) as [H15|H15], (ltb_spec 10 d) as [H10|H10],
    exp, (was_adjusted _); cbn [andb In];
    intuition (try discriminate; try congruence; try lra).
Qed.

End RunMore.

(** X10: the SAFE outputs ignore the ML estimate and the mode: for two ML
    estimates and two mode flags, all else equal, the safe prediction, the
    safe weights and the special-case flags coincide, and so does the
    published final prediction when both runs are in SAFE mode. *)
Theorem safe_outputs_ignore_ml (mlv1 mlv2 rp : Q) (td : dict) (bmi : Q)
    (sex : string) (ms rs : dict) (exp1 exp2 : bool) :
  texture_ok td ->
  exists r1 r2,
    ensemble_predict_body_fat (Some mlv1) rp td bmi sex ms rs exp1 = Ok r1
    /\ ensemble_predict_body_fat (Some mlv2) rp td bmi sex ms rs exp2 = Ok r2
    /\ safe_prediction r1 = safe_prediction r2
    /\ safe_weights r1 = safe_weights r2
    /\ special_cases r1 = special_cases r2
    /\ (exp1 = false -> exp2 = false ->
        final_prediction r1 = final_prediction r2).
Proof.
  intros Htd.
  destruct (ensemble_run mlv1 rp td bmi sex ms rs exp1 Htd)
    as (tp1 & r1 & Htp1 & Hr1 & Hw1 & Hs1 & _ & _ & _ & _ & He1).
  destruct (ensemble_run mlv2 rp td bmi sex ms rs exp2 Htd)
    as (tp2 & r2 & Htp2 & Hr2 & Hw2 & Hs2 & _ & _ & _ & _ & He2).
  destruct (ensemble_run_trail mlv1 rp td bmi sex ms rs exp1 Htd)
    as (tp1' & r1' & _ & Hr1' & Hc1 & _).
  destruct (ensemble_run_trail mlv2 rp td bmi sex ms rs exp2 Htd)
    as (tp2' & r2' & _ & Hr2' & Hc2 & _).
  assert (tp2 = tp1) by congruence. subst tp2.
  assert (r1' = r1) by congruence. subst r1'.
  assert (r2' = r2) by congruence. subst r2'.
  exists r1, r2. split; [exact Hr1|]. split; [exact Hr2|].
  split; [congruence|]. split; [congruence|]. split; [congruence|].
  intros -> ->. destruct He1 as [E1 _], He2 as [E2 _]. congruence.
Qed.

(** X11: with a texture confidence between 0 and 1 the rules never get
    less than 30.6 percent of the SAFE weight, whatever special cases
    apply: the rules confidence cannot fall below 0.441 and the texture
    confidence cannot rise above 1. *)
Theorem rules_weight_at_least (mlv rp : Q) (td : dict) (bmi : Q)
    (sex : string) (ms rs : dict) (exp : bool) :
  texture_ok td -> Py.get td "confidence" 0.5 <= 1 ->
  exists r,
    ensemble_predict_body_fat (Some mlv) rp td bmi sex ms rs exp = Ok r
    /\ 0.306 <= sw_rules (safe_weights r)
    /\ sw_texture (safe_weights r) <= 0.694.
Proof.
  intros Htd Hc1.
  destruct (ensemble_run mlv rp td bmi sex ms rs exp Htd)
    as (tp & r & _ & Hr & Hw & _).
  exists r. split; [exact Hr|].
  assert (Hb : 0.441 <= rules_confidence (fused_confidence td bmi ms rs)
               /\ texture_confidence (fused_confidence td bmi ms rs) <= 1).
  { unfold fused_confidence. apply adjust_confidences_tight; cbn;
      [reflexivity | apply Htd | exact Hc1]. }
  destruct Hb as [Hrc Htc].
  destruct (fused_confidence_bounds td bmi ms rs Htd) as (_ & _ & Ht0).
  set (c := fused_confidence td bmi ms rs) in *.
  destruct (weight_pair (rules_confidence c) (texture_confidence c)
              ltac:(lra) Ht0) as (_ & _ & Hsum).
  pose proof (round_complement _ _ Hsum) as Hrsum.
  rewrite Hw. cbn [sw_rules sw_texture].
  assert (Hwr : 0.306 <= rules_confidence c
                         / (rules_confidence c + texture_confidence c)).
  { apply Qle_shift_div_l; lra. }
  pose proof (round_mono _ _ 3 Hwr) as Hm.
  assert (G : Py.round 0.306 3 == 0.306) by reflexivity.
  lra.
Qed.

Lemma rules_weight_at_least_witness :
  exists r,
    ensemble_predict_body_fat (Some 20) 19 sharp_texture 28 "male" ∅
      waist_068 false = Ok r
    /\ 0.306 <= sw_rules (safe_weights r).
Proof.
  destruct (rules_weight_at_least 20 19 sharp_texture 28 "male" ∅ waist_068
              false) as (r & Hr & Hw & _).
  - apply texture_signals_ok. discriminate.
  - discriminate.
  - exists r. split; assumption.
Defined.

Lemma safe_outputs_ignore_ml_witness :
  exists r1 r2,
    ensemble_predict_body_fat (Some 12) 19 calm_texture 28 "male" ∅
      waist_068 false = Ok r1
    /\ ensemble_predict_body_fat (Some 44) 19 calm_texture 28 "male" ∅
         waist_068 true = Ok r2
    /\ safe_prediction r1 = safe_prediction r2
    /\ safe_weights r1 = safe_weights r2.
Proof.
  destruct (safe_outputs_ignore_ml 12 44 19 calm_texture 28 "male" ∅
              waist_068 false true)
    as (r1 & r2 & H1 & H2 & Hs & Hw & _).
  - apply texture_signals_ok. discriminate.
  - exists r1, r2. repeat split; assumption.
Defined.

Lemma flags_agree_with_adjustments_witness :
  exists r,
    ensemble_predict_body_fat (Some 45) 5 blank_texture 32 "male" ∅ ∅ false
    = Ok r
    /\ (low_image_quality (special_cases r) = true
        <-> In LowImageQualityPrioritiseRules (adjustments r)).
Proof.
  destruct (flags_agree_with_adjustments 45 5 blank_texture 32 "male" ∅ ∅
              false) as (r & Hr & _ & _ & _ & Hl).
  - apply texture_signals_ok. discriminate.
  - exists r. split; assumption.
Defined.

Lemma divergence_is_reported_witness :
  exists r,
    ensemble_predict_body_fat (Some 45) 5 blank_texture 32 "male" ∅ ∅ false
    = Ok r
    /\ confidence_impact (ml_analysis r) = "reduced"%string.
Proof.
  destruct (divergence_is_reported 45 5 blank_texture 32 "male" ∅ ∅ false)
    as (r & Hr & _ & Hi & _).
  - apply texture_signals_ok. discriminate.
  - exists r. split; [exact Hr|]. apply Hi. reflexivity.
Defined.

End FusionEngineMore.

(** ** The estimate operation *)

Section EstimatorMore.

Variables (ms td : dict) (weight_kg height_cm : Q) (sex : string)
  (alerts0 : list Note) (experimental : bool) (g : RandomState)
  (w s h t : Q).
Hypothesis waist_present : ms !! "waist_width" = Some w.
Hypothesis shoulder_present : ms !! "shoulder_width" = Some s.
Hypothesis shoulder_nonzero : ~ s == 0.
Hypothesis hip_present : ms !! "hip_width" = Some h.
Hypothesis torso_present : ms !! "torso_height" = Some t.
Hypothesis height_nonzero : ~ height_cm == 0.

Let ratios := {| r_waist_to_shoulder := w / s;
                 r_hip_to_shoulder := h / s;
                 r_torso_to_shoulder := t / s |}.
Let bmi := weight_kg / (height_cm / 100 * (height_cm / 100)).
Let body := classify_body_type (ratios_dict ratios) sex (Some bmi).
Let rules :=
  estimate_body_fat body bmi sex (Some (ratios_dict ratios)) (Some ms) g.

(** The steps up to the choice between fusion and fallback. *)
Lemma estimate_steps_unfolded (use_ml use_ensemble : bool)
    (regressor : Result Q) :
  estimate_steps ms td weight_kg height_cm sex use_ml use_ensemble regressor
    alerts0 experimental g
  = ('(body_fat, estimation_method, alerts, ensemble_info) ←
       match use_ensemble, (ml_step use_ml regressor alerts0).1 with
       | true, Some ml =>
           ensemble_result ←
             ensemble_predict_body_fat (Some ml) rules.1 td bmi sex ms
               (ratios_dict ratios) experimental;
           Ok (safe_prediction ensemble_result,
               ("Ensemble V3 - " +:+ mode ensemble_result +:+ " MODE")%string,
               (ml_step use_ml regressor alerts0).2
                 ++ adjustments ensemble_result,
               Some {| ei_mode := mode ensemble_result;
                       ei_ml_prediction := ml_prediction_out ensemble_result;
                       ei_rules_prediction :=
                         rules_prediction_out ensemble_result;
                       ei_texture_prediction :=
                         texture_prediction_out ensemble_result;
                       ei_safe_prediction := safe_prediction ensemble_result;
                       ei_experimental_prediction :=
                         experimental_prediction ensemble_result;
                       ei_safe_weights := safe_weights ensemble_result;
                       ei_experimental_weights :=
                         experimental_weights ensemble_result;
                       ei_confidence := confidence ensemble_result;
                       ei_confidence_level :=
                         confidence_level ensemble_result;
                       ei_ml_analysis := ml_analysis ensemble_result;
                       ei_special_cases := special_cases ensemble_result |})
       | _, _ =>
           Ok (rules.1, "Rule-based"%string,
               (ml_step use_ml regressor alerts0).2, None)
       end;
     Ok {| body_type := body;
           body_fat_percentage := body_fat;
           bmi_out := Py.round bmi 1;
           estimation_method := estimation_method;
           ratios_out := ratios;
           alerts := alerts;
           ensemble_info := ensemble_info |}, rules.2).
Proof.
  unfold estimate_steps.
  rewrite (ratios_returned ms w s h t waist_present shoulder_present
             shoulder_nonzero hip_present torso_present).
  cbn [mbind Result_bind Py.bind].
  assert (Hden : ~ height_cm / 100 * (height_cm / 100) == 0).
  { assert (Hq : ~ height_cm / 100 == 0).
    { intros H0. unfold Qdiv in H0. apply Qmult_integral in H0.
      destruct H0 as [H0|H0]; [exact (height_nonzero H0) | discriminate]. }
    intros H0. apply Qmult_integral in H0. tauto. }
  rewrite (div_nonzero _ _ Hden). cbn [mbind Result_bind Py.bind].
  fold ratios bmi body.
  destruct (ml_step use_ml regressor alerts0) as [mlp alerts1].
  fold rules. destruct rules as [rp g']. cbn [fst snd].
  reflexivity.
Qed.

Lemma rules_within_bounds : within_sex_bounds sex rules.1.
Proof.
  unfold rules, estimate_body_fat, random_uniform, random_random.
  cbn [fst]. apply body_fat_with_noise_within_bounds.
Qed.

Lemma ml_step_available (use_ml : bool) (regressor : Result Q) :
  is_Some (ml_step use_ml regressor alerts0).1
  <-> use_ml = true /\ exists v, regressor = Ok v.
Proof.
  unfold ml_step. destruct use_ml, regressor; cbn [fst]; split.
  - intros _. split; [reflexivity|]. eexists. reflexivity.
  - intros _. eexists. reflexivity.
  - intros [x Hx]. discriminate.
  - intros [_ [v Hv]]. discriminate.
  - intros [x Hx]. discriminate.
  - intros [Hf _]. discriminate.
  - intros [x Hx]. discriminate.
  - intros [Hf _]. discriminate.
Qed.

(** X12: a missing texture score makes the whole estimate fail once the
    fusion engine is used: with an ML estimate available the outcome is
    the error dictionary built from the [KeyError], whereas the fallback
    to the rules never reads the texture signals. *)
Theorem missing_texture_score_fails_estimate (ml : Q) (k : string) :
  first_missing_score td = Some k ->
  (estimate_body_composition ms td weight_kg height_cm sex true true
     (Ok ml) alerts0 experimental g).1
  = ProcessingError (KeyError k).
Proof.
  intros Hk. unfold estimate_body_composition.
  rewrite estimate_steps_unfolded. cbn [ml_step fst snd].
  unfold ensemble_predict_body_fat.
  rewrite (missing_score_key_error td sex bmi k Hk). reflexivity.
Qed.

Hypothesis texture_in_order : texture_ok td.

(** X13: on measurements with the four widths present, a non-zero shoulder
    width and height, and texture signals in order, the estimate operation
    always returns a result, and the published body-fat percentage lies
    within the bounds of the sex whichever branch produced it; the
    ensemble information is present exactly when the ensemble is requested
    and the regressor gave an estimate. *)
Theorem published_body_fat_within_bounds (use_ml use_ensemble : bool)
    (regressor : Result Q) :
  exists result g',
    estimate_body_composition ms td weight_kg height_cm sex use_ml
      use_ensemble regressor alerts0 experimental g = (Estimated result, g')
    /\ within_sex_bounds sex (body_fat_percentage result)
    /\ (is_Some (ensemble_info result)
        <-> use_ensemble = true /\ use_ml = true
            /\ exists v, regressor = Ok v).
Proof.
  unfold estimate_body_composition. rewrite estimate_steps_unfolded.
  pose proof (ml_step_available use_ml regressor) as Hav.
  destruct (ml_step use_ml regressor alerts0) as [[ml|] alerts1];
    cbn [fst snd] in *; destruct use_ensemble.
  - destruct (ensemble_run ml rules.1 td bmi sex ms (ratios_dict ratios)
                experimental texture_in_order)
      as (tp & r & _ & Hr & _ & Hs & _).
    assert (Hb : within_sex_bounds sex (safe_prediction r)).
    { rewrite Hs. apply round_within_bounds, validated_within_bounds. }
    rewrite Hr. cbn [mbind Result_bind Py.bind].
    eexists. eexists. split; [reflexivity|].
    cbn [body_fat_percentage ensemble_info]. split; [exact Hb|].
    split.
    + intros _. split; [reflexivity|]. apply Hav. eexists. reflexivity.
    + intros _. eexists. reflexivity.
  - cbn [mbind Result_bind Py.bind].
    eexists. eexists. split; [reflexivity|].
    cbn [body_fat_percentage ensemble_info].
    split; [apply rules_within_bounds|].
    split; [intros [x Hx]; discriminate | intros [Hf _]; discriminate].
  - cbn [mbind Result_bind Py.bind].
    eexists. eexists. split; [reflexivity|].
    cbn [body_fat_percentage ensemble_info].
    split; [apply rules_within_bounds|].
    split; [intros [x Hx]; discriminate|].
    intros (_ & Hm). apply Hav in Hm. destruct Hm as [x Hx]. discriminate.
  - cbn [mbind Result_bind Py.bind].
    eexists. eexists. split; [reflexivity|].
    cbn [body_fat_percentage ensemble_info].
    split; [apply rules_within_bounds|].
    split; [intros [x Hx]; discriminate | intros [Hf _]; discriminate].
Qed.

(** X14: when the fusion engine runs, the published body-fat percentage is
    the validated safe prediction of the engine in both modes; in
    EXPERIMENTAL mode the experimental blend is only carried along in the
    ensemble information.  The alerts are extended by the adjustments of
    the engine. *)
Theorem fusion_branch_publishes_safe_prediction (ml : Q) :
  exists result g' r info,
    estimate_body_composition ms td weight_kg height_cm sex true true
      (Ok ml) alerts0 experimental g = (Estimated result, g')
    /\ ensemble_predict_body_fat (Some ml) rules.1 td bmi sex ms
         (ratios_dict ratios) experimental = Ok r
    /\ ensemble_info result = Some info
    /\ body_fat_percentage result = safe_prediction r
    /\ ei_safe_prediction info = safe_prediction r
    /\ ei_experimental_prediction info = experimental_prediction r
    /\ ei_mode info = (if experimental then "EXPERIMENTAL" else "SAFE")%string
    /\ estimation_method result
       = (if experimental then "Ensemble V3 - EXPERIMENTAL MODE"
          else "Ensemble V3 - SAFE MODE")%string
    /\ alerts result = alerts0 ++ adjustments r.
Proof.
  unfold estimate_body_composition. rewrite estimate_steps_unfolded.
  cbn [ml_step fst snd].
  destruct (ensemble_run ml rules.1 td bmi sex ms (ratios_dict ratios)
              experimental texture_in_order)
    as (tp & r & _ & Hr & _ & _ & _ & _ & Hmode & _).
  rewrite Hr. cbn [mbind Result_bind Py.bind].
  eexists. eexists. exists r. eexists.
  split; [reflexivity|]. split; [reflexivity|].
  cbn [ensemble_info body_fat_percentage estimation_method alerts].
  split; [reflexivity|].
  cbn [ei_safe_prediction ei_experimental_prediction ei_mode].
  rewrite Hmode. destruct experimental; repeat split; reflexivity.
Qed.

End EstimatorMore.

Lemma missing_texture_score_fails_estimate_witness :
  (estimate_body_composition measurements_complete
     texture_without_vascularity 80 175 "male" true true (Ok 20) [] false
     uneven_generator).1
  = ProcessingError (KeyError "vascularity").
Proof.
  apply (missing_texture_score_fails_estimate measurements_complete
           texture_without_vascularity 80 175 "male" [] false
           uneven_generator 0.3 0.5 0.3 0.5);
    try reflexivity; discriminate.
Defined.

Lemma published_body_fat_within_bounds_witness :
  exists result g',
    estimate_body_composition measurements_complete even_texture 80 175
      "male" true true (Ok 20) [] true uneven_generator
    = (Estimated result, g')
    /\ within_sex_bounds "male" (body_fat_percentage result).
Proof.
  destruct (published_body_fat_within_bounds measurements_complete
              even_texture 80 175 "male" [] true uneven_generator
              0.3 0.5 0.3 0.5) with (use_ml := true) (use_ensemble := true)
              (regressor := Ok 20)
    as (result & g' & Hrun & Hb & _);
    [ first [ reflexivity
            | intro Hz; discriminate Hz
            | apply texture_signals_ok; intro Hz; discriminate Hz ] .. | ].
  exists result, g'. split; assumption.
Defined.

Lemma fusion_branch_publishes_safe_prediction_witness :
  exists result g' info,
    estimate_body_composition measurements_complete even_texture 80 175
      "male" true true (Ok 20) [] true uneven_generator
    = (Estimated result, g')
    /\ ensemble_info result = Some info
    /\ body_fat_percentage result = ei_safe_prediction info
    /\ ei_mode info = "EXPERIMENTAL"%string.
Proof.
  destruct (fusion_branch_publishes_safe_prediction measurements_complete
              even_texture 80 175 "male" [] true uneven_generator
              0.3 0.5 0.3 0.5) with (ml := 20)
    as (result & g' & r & info & Hrun & _ & Hi & Hb & Hs & _ & Hm & _);
    [ first [ reflexivity
            | intro Hz; discriminate Hz
            | apply texture_signals_ok; intro Hz; discriminate Hz ] .. | ].
  exists result, g', info.
  split; [exact Hrun|]. split; [exact Hi|]. split; [congruence | exact Hm].
Defined.

(** ** Feature builder and regressor *)

(** One read [features[k]] of the regressor: either the feature is there
    and the reading goes on, or the [KeyError] for [k] is the outcome. *)
Ltac read_feature f k :=
  let E := fresh "E" in
  destruct (f !! k) as [?|] eqn:E;
  [ cbn [mbind Result_bind Py.bind]
  | exists k; split; [exact E|]; split; [|reflexivity];
    unfold required_features; cbn [In];
    repeat (first [left; reflexivity | right]) ].

Section FeaturesMore.





Lemma predict_clamped (sex_encoded prediction : Q) :
  within_encoded_bounds sex_encoded
    (Py.round
       (if String.eqb (if Qeq_bool sex_encoded 1 then "male" else "female")
             "male"
        then Py.max 5.0 (Py.min prediction 45.0)
        else Py.max 12.0 (Py.min prediction 50.0)) 1).
Proof.
  unfold within_encoded_bounds.
  destruct (Qeq_bool sex_encoded 1); cbn [String.eqb Ascii.eqb Bool.eqb].
  - destruct (max_min_bounds 5.0 45.0 prediction ltac:(discriminate)).
    apply round_between; try reflexivity; lra.
  - destruct (max_min_bounds 12.0 50.0 prediction ltac:(discriminate)).
    apply round_between; try reflexivity; lra.
Qed.

Lemma none_missing (f : dict) (l : list string) :
  match List.filter (fun k => negb (bool_decide (is_Some (f !! k)))) l with
  | [] => true
  | _ => false
  end = true
  <-> Forall (fun k => is_Some (f !! k)) l.
Proof.
  induction l as [|k l IH]; cbn [List.filter].
  - split; [constructor | reflexivity].
  - rewrite Forall_cons. destruct (bool_decide_reflect (is_Some (f !! k)))
      as [Hk|Hk]; cbn [negb].
    + rewrite IH. tauto.
    + split; [discriminate | tauto].
Qed.

Lemma validate_features_spec (f : dict) :
  validate_features f = true
  <-> Forall (fun k => is_Some (f !! k)) required_features.
Proof. apply none_missing. Qed.

(** X16: the regressor returns exactly on the features that
    [validate_features] accepts, and then its answer is within 5 and 45
    when the encoded sex is 1 and within 12 and 50 otherwise, whatever the
    model computes.  On features that [validate_features] refuses it
    raises [KeyError] for a required feature that is missing. *)
Theorem predict_outcomes (model : list Q -> Q) (f : dict) :
  (validate_features f = true ->
   exists p s,
     f !! "sex" = Some s
     /\ predict model f = Ok p
     /\ within_encoded_bounds s p)
  /\ (validate_features f = false ->
      exists k,
        f !! k = None
        /\ In k required_features
        /\ predict model f = Raise (KeyError k)).
Proof.
  split; intros Hv.
  - apply validate_features_spec in Hv. unfold required_features in Hv.
    rewrite !Forall_cons in Hv.
    destruct Hv as ([v1 E1] & [v2 E2] & [v3 E3] & [v4 E4] & [v5 E5]
                    & [v6 E6] & [v7 E7] & [v8 E8] & [v9 E9] & _).
    unfold predict, Py.getitem.
    rewrite E1, E2, E3, E4, E5, E6, E7, E8, E9.
    cbn [mbind Result_bind Py.bind].
    eexists. exists v3. split; [reflexivity|]. split; [reflexivity|].
    apply predict_clamped.
  - unfold predict, Py.getitem.
    read_feature f "age"%string.
    read_feature f "bmi"%string.
    read_feature f "sex"%string.
    read_feature f "shoulder_width"%string.
    read_feature f "hip_width"%string.
    read_feature f "height_ratio"%string.
    read_feature f "waist_ratio"%string.
    read_feature f "volume_indicator"%string.
    read_feature f "waist_prominence"%string.
    exfalso.
    assert (Ht : validate_features f = true).
    { apply validate_features_spec. unfold required_features.
      repeat constructor; eauto. }
    congruence.
Qed.


End FeaturesMore.


Lemma predict_outcomes_witness :
  exists k,
    features_without_bmi !! k = None
    /\ In k required_features
    /\ predict constant_model features_without_bmi = Raise (KeyError k).
Proof.
  destruct (predict_outcomes constant_model features_without_bmi) as [_ H].
  apply H. reflexivity.
Defined.


(** ** Comparison of the detected sex and age with the user's data *)

Section UserValidationMore.

Variables (detected_sex : string) (detected_age : Z) (user_sex : string)
  (user_age : Z) (conf : Q).

(** X18: the comparison is silent exactly when the detected sex equals the
    normalised sex of the user and the ages differ by at most five years.
    A sex mismatch always leaves one warning, whatever the confidence, and
    an age difference above five years leaves one; there are never more
    than two. *)
Theorem warnings_iff_mismatch :
  let v := _validate_against_user_data detected_sex detected_age user_sex
             user_age conf in
  (warnings v = [] <-> sex_match v = true /\ age_match v = true)
  /\ (sex_match v = true <-> detected_sex = _normalize_sex user_sex)
  /\ (age_match v = true <-> (Z.abs (detected_age - user_age) <= 5)%Z)
  /\ (length (warnings v) <= 2)%nat
  /\ performed v = true.
Proof.
  unfold _validate_against_user_data.
  cbn [warnings sex_match age_match performed].
  set (d := Z.abs (detected_age - user_age)).
  rewrite String.eqb_eq, Z.leb_le.
  destruct (String.eqb detected_sex (_normalize_sex user_sex)) eqn:Es;
    [apply String.eqb_eq in Es | apply String.eqb_neq in Es];
    cbn [negb andb].
  - destruct (10 <? d)%Z eqn:E10; [|destruct (5 <? d)%Z eqn:E5];
      rewrite ?Z.ltb_lt, ?Z.ltb_ge in *; cbn [app length];
      repeat split; intros; try discriminate; try lia; try tauto;
      try (destruct H; lia).
  - unfold Py.geb.
    destruct (leb_spec 0.6 conf) as [Hc|Hc].
    + destruct (10 <? d)%Z eqn:E10; [|destruct (5 <? d)%Z eqn:E5];
        rewrite ?Z.ltb_lt, ?Z.ltb_ge in *; cbn [app length];
        repeat split; intros; try discriminate; try lia; try tauto;
        try (destruct H; contradiction).
    + replace (Py.ltb conf 0.6) with true
        by (symmetry; apply ltb_true; lra).
      destruct (10 <? d)%Z eqn:E10; [|destruct (5 <? d)%Z eqn:E5];
        rewrite ?Z.ltb_lt, ?Z.ltb_ge in *; cbn [app length];
        repeat split; intros; try discriminate; try lia; try tauto;
        try (destruct H; contradiction).
Qed.

End UserValidationMore.

(** ** The basic checks of the endpoint *)

Section BasicChecksMore.

Variables (sex : string) (age : Z) (weight_kg height_cm : Q).

Lemma bmi_after_checks :
  30 <= weight_kg -> weight_kg <= 300 ->
  100 <= height_cm -> height_cm <= 250 ->
  exists bmi,
    Py.div weight_kg (height_cm / 100 * (height_cm / 100)) = Ok bmi
    /\ 4.8 <= bmi /\ bmi <= 300.
Proof.
  intros W1 W2 H1 H2.
  set (x := height_cm / 100).
  assert (X1 : 1 <= x) by (subst x; apply Qle_shift_div_l; lra).
  assert (X2 : x <= 2.5) by (subst x; apply Qle_shift_div_r; lra).
  assert (D1 : 1 <= x * x) by nra.
  assert (D2 : x * x <= 6.25) by nra.
  rewrite div_nonzero by lra.
  eexists. split; [reflexivity|]. split.
  - apply Qle_shift_div_l; lra.
  - apply Qle_shift_div_r; lra.
Qed.

(** X19: the endpoint goes on exactly when the lowered sex is male or
    female, the age is between 16 and 100, the weight between 30 and 300
    and the height between 100 and 250.  The sex it goes on with is the
    lowered one, so one of the two words the estimators test for, and the
    BMI computed later is defined and lies between 4.8 and 300. *)
Theorem basic_checks_accept :
  ((exists s, basic_checks sex age weight_kg height_cm = inr s)
   <-> ((lower sex = "male"%string \/ lower sex = "female"%string)
        /\ (16 <= age <= 100)%Z
        /\ (30 <= weight_kg /\ weight_kg <= 300)
        /\ (100 <= height_cm /\ height_cm <= 250)))
  /\ (forall s,
        basic_checks sex age weight_kg height_cm = inr s ->
        s = lower sex
        /\ (s = "male"%string \/ s = "female"%string)
        /\ exists bmi,
             Py.div weight_kg (height_cm / 100 * (height_cm / 100)) = Ok bmi
             /\ 4.8 <= bmi /\ bmi <= 300).
Proof.
  assert (Hiff :
    (exists s, basic_checks sex age weight_kg height_cm = inr s)
    <-> ((lower sex = "male"%string \/ lower sex = "female"%string)
         /\ (16 <= age <= 100)%Z
         /\ (30 <= weight_kg /\ weight_kg <= 300)
         /\ (100 <= height_cm /\ height_cm <= 250))).
  { unfold basic_checks, string_in. cbn [existsb].
    rewrite orb_false_r.
    destruct (String.eqb (lower sex) "male") eqn:Em;
      [|destruct (String.eqb (lower sex) "female") eqn:Ef];
      rewrite ?String.eqb_eq, ?String.eqb_neq in *; cbn [orb negb].
    3: { split; [intros [s Hs]; discriminate Hs|].
         intros ([H|H] & _); contradiction. }
    all: destruct (16 <=? age)%Z eqn:A1, (age <=? 100)%Z eqn:A2;
      rewrite ?Z.leb_le, ?Z.leb_gt in *; cbn [andb negb];
      try (split; [intros [s Hs]; discriminate Hs | intros; lia]).
    all: destruct (leb_spec 30 weight_kg), (leb_spec weight_kg 300);
      cbn [andb negb];
      try (split; [intros [s Hs]; discriminate Hs | intros; lra]).
    all: destruct (leb_spec 100 height_cm), (leb_spec height_cm 250);
      cbn [andb negb];
      try (split; [intros [s Hs]; discriminate Hs | intros; lra]).
    all: split; [intros _ | intros _; eexists; reflexivity].
    all: repeat split; try assumption; try lia; auto. }
  split; [exact Hiff|].
  intros s Hs.
  destruct (proj1 Hiff (ex_intro _ s Hs)) as (Hsex & _ & [W1 W2] & [H1 H2]).
  assert (Es : s = lower sex).
  { unfold basic_checks in Hs.
    repeat match type of Hs with
           | (if ?c then _ else _) = _ => destruct c; [discriminate Hs|]
           end.
    congruence. }
  split; [exact Es|]. split; [rewrite Es; exact Hsex|].
  apply bmi_after_checks; assumption.
Qed.

End BasicChecksMore.

(** ** Categories and detailed analysis *)

Section DetailedAnalysisMore.

Variables (bf bmi : Q) (sex : string) (age : Z) (rs : dict).

(** X20: the detailed analysis is coherent across its parts.  It gives no
    recommendation exactly at a body fat of 18 for a man and of 25
    otherwise, the lower end of the average category; the category
    overweight always comes with the status of elevated body fat and the
    category essential with that of very low body fat; the status is
    healthy exactly when body fat and BMI are both in their healthy
    ranges; and the status of last resort is never given. *)
Theorem detailed_analysis_coherent :
  let a := get_detailed_analysis bf bmi sex age rs in
  (recommendations a = [] <-> bf == (if is_male sex then 18 else 25))
  /\ (category (da_category a) = "overweight"%string ->
      health_status a = "⚠️ Gordura corporal elevada"%string)
  /\ (category (da_category a) = "essential"%string ->
      health_status a = "⚠️ Gordura corporal muito baixa"%string)
  /\ (health_status a = "✅ Saudável"%string
      <-> ((if is_male sex then 10 else 18) <= bf
           /\ bf <= (if is_male sex then 22 else 30))
          /\ 18.5 <= bmi /\ bmi <= 24.9)
  /\ health_status a <> "ℹ️ Avaliação individual recomendada"%string.
Proof.
  unfold get_detailed_analysis.
  cbn [recommendations da_category health_status].
  unfold get_bf_category, _get_recommendations, _get_health_status.
  destruct (is_male sex); cbn [fst snd];
    unfold Py.gtb;
    repeat (compare_step;
            cbn [andb category String.eqb Ascii.eqb Bool.eqb] in *;
            try lra);
    repeat split; intros; try discriminate; try reflexivity; try lra.
Qed.

End DetailedAnalysisMore.
